(** * SC16IS7x0 register-level driver: shallow embedding and properties

    The driver of [sc16is7x0] talks to the bridge chip through an I2C handle
    ([github.com/d2r2/go-i2c]) and reads the wall clock in its two poll
    loops.  Both are external to the package, so they are kept abstract:

    - the bus is any state machine implementing the class [I2C];
    - the clock is the sequence of values returned by the successive calls
      of [time.Now], in nanoseconds.

    Every driver function is a state transformer over [World], which also
    records the bus transactions in the order they are issued.  Bytes and
    the other fixed-width integers are values of [Z] whose wrap-around is
    written where the Go code wraps. *)

From Stdlib Require Import ZArith Lia Bool.
From stdpp Require Import list.

Local Open Scope Z_scope.

(** ** Fixed-width integers *)

Definition u8 (x : Z) : Z := x mod 256.
Definition u32 (x : Z) : Z := x mod 2 ^ 32.

(** ** Register map ([type Register byte]) *)

Definition regRHR : Z := 0x00.
Definition regTHR : Z := 0x00.
Definition regFCR : Z := 0x02.
Definition regIIR : Z := 0x02.
Definition regLCR : Z := 0x03.
Definition regMCR : Z := 0x04.
Definition regLSR : Z := 0x05.
Definition regSPR : Z := 0x07.
Definition regRXLVL : Z := 0x09.
Definition regDLL : Z := 0x00.
Definition regDLH : Z := 0x01.

(** ** Configuration constants *)

Definition DefaultSize : Z := 8.

Definition Stop1 : Z := 1.
Definition Stop1Half : Z := 15.
Definition Stop2 : Z := 2.

(** [ParityNone = 'N'], ['O'], ['E'], ['M'], ['S']. *)
Definition ParityNone : Z := 78.
Definition ParityOdd : Z := 79.
Definition ParityEven : Z := 69.
Definition ParityMark : Z := 77.
Definition ParitySpace : Z := 83.

(** [RxDFifo FifoType = iota], [TxDFifo], [BothFifo]. *)
Definition RxDFifo : Z := 0.
Definition TxDFifo : Z := 1.
Definition BothFifo : Z := 2.

Definition testValue : Z := 0xde.

(** One second, as a [time.Duration] (nanoseconds). *)
Definition Second : Z := 1000000000.

(** ** Errors *)

(** An error value produced by the bus collaborator. *)
Inductive buserr : Type := BusFault (code : nat).

(** The Go [error] values the package can return: a collaborator's error,
    passed on unchanged, or one of the three package-level variables. *)
Inductive error : Type :=
| ErrBus (e : buserr)
| ErrorScratchpad
| ErrUnsupportedDataBits
| ErrTimeout.

Definition lift_err (e : option buserr) : option error := ErrBus <$> e.

(** Result of a function that may stop in a run-time panic. *)
Inductive outcome (A : Type) : Type :=
| Done (a : A)
| Panic.
Arguments Done {A} a.
Arguments Panic {A}.

(** ** The bus collaborator and the world *)

(** The operations of [*i2c.I2C] used by the package.  A register read
    yields a value and an error, as the Go method does. *)
Class I2C (H : Type) : Type := {
  NewI2C : Z -> Z -> H -> H * option buserr;
  ReadRegU8 : Z -> H -> H * (Z * option buserr);
  WriteRegU8 : Z -> Z -> H -> H * option buserr;
  I2C_Close : H -> H * option buserr
}.

(** A bus transaction, with the raw register address put on the wire. *)
Inductive Event : Type :=
| EvNew (addr bus : Z) (err : option buserr)
| EvRead (raw v : Z) (err : option buserr)
| EvWrite (raw v : Z) (err : option buserr)
| EvClose (err : option buserr).

Record World (H : Type) : Type := mkWorld {
  hw : H;
  clock : nat -> Z;
  ticks : nat;
  trace : list Event
}.
Arguments mkWorld {H} _ _ _ _.
Arguments hw {H} _.
Arguments clock {H} _ _.
Arguments ticks {H} _.
Arguments trace {H} _.

(** [type SC16IS7X0 struct]; the [dev] handle is the [hw] of the world. *)
Record SC16IS7X0 : Type := mkDev {
  xtalFreq : Z;
  timeout : Z
}.

Record Config : Type := mkConfig {
  Address : Z;
  Bus : Z;
  Baud : Z;
  XtalFreq : Z;
  Timeout : Z;
  Size : Z;
  Parity : Z;
  StopBits : Z
}.

Definition is_close (ev : Event) : bool :=
  match ev with EvClose _ => true | _ => false end.

Definition is_write (ev : Event) : bool :=
  match ev with EvWrite _ _ _ => true | _ => false end.

Section Driver.
Context {H : Type} {bus : I2C H}.

Abbreviation World := (World H).

Definition record (ev : Event) (h : H) (w : World) : World :=
  mkWorld h (clock w) (ticks w) (trace w ++ [ev]).

(** [time.Now()] *)
Definition time_Now (w : World) : World * Z :=
  (mkWorld (hw w) (clock w) (S (ticks w)) (trace w), clock w (ticks w)).

(** ** Register primitives *)

Definition readReg (reg : Z) (w : World) : World * (Z * option error) :=
  let raw := u8 (Z.shiftl reg 3) in
  let '(h, (v, e)) := ReadRegU8 raw (hw w) in
  (record (EvRead raw (u8 v) e) h w, (u8 v, lift_err e)).

Definition writeReg (reg value : Z) (w : World) : World * option error :=
  let raw := u8 (Z.shiftl reg 3) in
  let '(h, e) := WriteRegU8 raw value (hw w) in
  (record (EvWrite raw value e) h w, lift_err e).

Definition updateRegBit (reg flag : Z) (value : bool) (w : World)
  : World * option error :=
  let '(w1, (flags, err)) := readReg reg w in
  match err with
  | Some e => (w1, Some e)
  | None =>
      let flags' :=
        if value then Z.lor flags (u8 (Z.shiftl 1 flag))
        else Z.ldiff flags (u8 (Z.shiftl 1 flag)) in
      writeReg reg flags' w1
  end.

Definition peekRegBit (reg flag : Z) (w : World)
  : World * (bool * option error) :=
  let '(w1, (current, err)) := readReg reg w in
  match err with
  | Some e => (w1, (false, Some e))
  | None => (w1, (negb (Z.land current (u8 (Z.shiftl 1 flag)) =? 0), None))
  end.

(** ** Line attributes *)

Definition setUARTAttributes (dataBits stopBits parity : Z) (w : World)
  : World * option error :=
  let size_bits : option Z :=
    if dataBits =? 5 then Some 0
    else if dataBits =? 6 then Some 1
    else if dataBits =? 7 then Some 2
    else if dataBits =? 8 then Some 3
    else None in
  match size_bits with
  | None => (w, Some ErrUnsupportedDataBits)
  | Some lcr =>
      let lcr := if negb (stopBits =? Stop1) then Z.lor lcr (Z.shiftl 1 2) else lcr in
      let lcr :=
        if parity =? ParityNone then lcr
        else if parity =? ParityOdd then Z.lor lcr (Z.shiftl 1 3)
        else if parity =? ParityEven then Z.lor lcr (Z.shiftl 3 3)
        else if parity =? ParityMark then Z.lor lcr (Z.shiftl 5 3)
        else if parity =? ParitySpace then Z.lor lcr (Z.shiftl 7 3)
        else lcr in
      writeReg regLCR lcr w
  end.

(** ** Baud rate *)

(** [(v.xtalFreq / prescaler) / (baud * 16)] on [uint32]: the product wraps
    modulo 2^32, and a zero divisor is a run-time panic. *)
Definition baud_divisor (xtal prescaler baud : Z) : option Z :=
  let d := u32 (baud * 16) in
  if d =? 0 then None else Some ((xtal / prescaler) / d).

Definition setBaudRate (v : SC16IS7X0) (baud : Z) (w : World)
  : World * outcome (option error) :=
  let '(w1, (clkDiv, err)) := peekRegBit regMCR 7 w in
  match err with
  | Some e => (w1, Done (Some e))
  | None =>
      let prescaler := if clkDiv then 4 else 1 in
      match baud_divisor (xtalFreq v) prescaler baud with
      | None => (w1, Panic)
      | Some divisor =>
          let lowerDivisor := u8 (Z.land divisor 0xFF) in
          let higherDivisor := u8 (Z.shiftr (Z.land divisor 0xFF00) 8) in
          let '(w2, err) := updateRegBit regLCR 7 true w1 in
          match err with
          | Some e => (w2, Done (Some e))
          | None =>
              let '(w3, err) := writeReg regDLL lowerDivisor w2 in
              match err with
              | Some e => (w3, Done (Some e))
              | None =>
                  let '(w4, err) := writeReg regDLH higherDivisor w3 in
                  match err with
                  | Some e => (w4, Done (Some e))
                  | None =>
                      let '(w5, err) := updateRegBit regLCR 7 false w4 in
                      match err with
                      | Some e => (w5, Done (Some e))
                      | None => (w5, Done None)
                      end
                  end
              end
          end
      end
  end.

(** ** Self-test *)

Definition testChip (w : World) : World * option error :=
  let '(w1, err) := writeReg regSPR testValue w in
  match err with
  | Some e => (w1, Some e)
  | None =>
      let '(w2, (rv, err)) := readReg regSPR w1 in
      match err with
      | Some e => (w2, Some e)
      | None => if negb (rv =? testValue) then (w2, Some ErrorScratchpad)
                else (w2, None)
      end
  end.

(** ** Poll loops *)

Inductive PollResult : Type :=
| PollReady
| PollFail (e : error)
| PollTimeout.

(** The [for] loop shared, up to the status bit tested, by [WriteByte]
    ([flag = 5]) and [Read] ([flag = 0]).  [fuel] bounds the number of
    iterations; [None] means the bound was reached. *)
Fixpoint poll (flag : Z) (timeoutTime : Z) (fuel : nat) (w : World)
  : option (World * PollResult) :=
  match fuel with
  | O => None
  | S fuel' =>
      let '(w1, (ready, err)) := peekRegBit regLSR flag w in
      match err with
      | Some e => Some (w1, PollFail e)
      | None =>
          if ready then Some (w1, PollReady)
          else
            let '(w2, now) := time_Now w1 in
            if timeoutTime <? now then Some (w2, PollTimeout)
            else poll flag timeoutTime fuel' w2
      end
  end.

(** ** Write path *)

Definition WriteByte (v : SC16IS7X0) (c : Z) (fuel : nat) (w : World)
  : option (World * option error) :=
  let '(w0, now) := time_Now w in
  let timeoutTime := now + timeout v in
  match poll 5 timeoutTime fuel w0 with
  | None => None
  | Some (w1, PollFail e) => Some (w1, Some e)
  | Some (w1, PollTimeout) => Some (w1, Some ErrTimeout)
  | Some (w1, PollReady) => Some (writeReg regTHR c w1)
  end.

Fixpoint Write_loop (v : SC16IS7X0) (fuel : nat) (p : list Z) (written : Z)
  (w : World) : option (World * (Z * option error)) :=
  match p with
  | [] => Some (w, (written, None))
  | val :: rest =>
      match WriteByte v val fuel w with
      | None => None
      | Some (w1, Some e) => Some (w1, (-1, Some e))
      | Some (w1, None) => Write_loop v fuel rest (written + 1) w1
      end
  end.

Definition Write (v : SC16IS7X0) (p : list Z) (fuel : nat) (w : World)
  : option (World * (Z * option error)) :=
  Write_loop v fuel p 0 w.

(** ** Read path *)

Definition ReadByte (w : World) : World * (Z * option error) :=
  readReg regRHR w.

Definition fifoDataLength (w : World) : World * (Z * option error) :=
  let '(w1, (len, err)) := readReg regRXLVL w in
  match err with
  | Some e => (w1, (-1, Some e))
  | None => (w1, (len, None))
  end.

(** [for i := 0; i < rlen; i++]: [n] is the number of iterations left,
    [rlen - i]. *)
Fixpoint Read_copy (rlen : Z) (n : nat) (i : Z) (p : list Z) (w : World)
  : World * (list Z * Z * option error) :=
  match n with
  | O => (w, (p, rlen, None))
  | S n' =>
      let '(w1, (b, err)) := ReadByte w in
      let p1 := <[Z.to_nat i := b]> p in
      match err with
      | Some e => (w1, (p1, i, Some e))
      | None => Read_copy rlen n' (i + 1) p1 w1
      end
  end.

(** [Read] returns the buffer as left by the call, the count and the
    error. *)
Definition Read (v : SC16IS7X0) (p : list Z) (fuel : nat) (w : World)
  : option (World * (list Z * Z * option error)) :=
  let '(w0, now) := time_Now w in
  let timeoutTime := now + timeout v in
  match poll 0 timeoutTime fuel w0 with
  | None => None
  | Some (w1, PollFail e) => Some (w1, (p, -1, Some e))
  | Some (w1, PollTimeout) => Some (w1, (p, -2, Some ErrTimeout))
  | Some (w1, PollReady) =>
      let blen := Z.of_nat (length p) in
      let '(w2, (flen, err)) := fifoDataLength w1 in
      match err with
      | Some e => Some (w2, (p, -1, Some e))
      | None =>
          let rlen := if blen <? flen then blen else flen in
          Some (Read_copy rlen (Z.to_nat rlen) 0 p w2)
      end
  end.

(** ** FIFO management *)

Definition ClearFifo (clearTarget : Z) (w : World) : World * option error :=
  let '(w1, (iirFlags, err)) := readReg regIIR w in
  match err with
  | Some e => (w1, Some e)
  | None =>
      let fcrFlags := if negb (Z.land iirFlags 0xC0 =? 0) then 1 else 0 in
      let fcrFlags :=
        if clearTarget =? RxDFifo then Z.lor fcrFlags 0x02
        else if clearTarget =? TxDFifo then Z.lor fcrFlags 0x04
        else if clearTarget =? BothFifo then Z.lor fcrFlags 0x06
        else fcrFlags in
      writeReg regFCR fcrFlags w1
  end.

Definition enableFifo (useFifo : bool) (w : World) : World * option error :=
  if useFifo then writeReg regFCR 1 w else writeReg regFCR 0 w.

(** ** Open and Close *)

Definition Close (w : World) : World * option error :=
  let '(h, e) := I2C_Close (hw w) in
  (record (EvClose e) h w, lift_err e).

(** [dev.Close(); return nil, err] *)
Definition abort_open (e : error) (w : World)
  : World * outcome (option SC16IS7X0 * option error) :=
  (fst (Close w), Done (None, Some e)).

(** The defaults applied to zero-valued fields at the head of [Open]:
    size, parity, stop bits, bus and timeout. *)
Definition Open_defaults (conf : Config) : Z * Z * Z * Z * Z :=
  (if Size conf =? 0 then DefaultSize else Size conf,
   if Parity conf =? 0 then ParityNone else Parity conf,
   if StopBits conf =? 0 then Stop1 else StopBits conf,
   if Bus conf =? 0 then 1 else Bus conf,
   if Timeout conf =? 0 then 1 * Second else Timeout conf).

Definition Open (conf : Config) (w : World)
  : World * outcome (option SC16IS7X0 * option error) :=
  let '(size, parityType, stopBits, bus, timeout) := Open_defaults conf in
  let '(h, e) := NewI2C (Address conf) bus (hw w) in
  let w0 := record (EvNew (Address conf) bus e) h w in
  match e with
  | Some e => (w0, Done (None, Some (ErrBus e)))
  | None =>
      let dev := mkDev (XtalFreq conf) timeout in
      let '(w1, err) := testChip w0 in
      match err with
      | Some e => abort_open e w1
      | None =>
          let '(w2, r) := setBaudRate dev (Baud conf) w1 in
          match r with
          | Panic => (w2, Panic)
          | Done (Some e) => abort_open e w2
          | Done None =>
              let '(w3, err) := enableFifo true w2 in
              match err with
              | Some e => abort_open e w3
              | None =>
                  let '(w4, err) := setUARTAttributes size stopBits parityType w3 in
                  match err with
                  | Some e => abort_open e w4
                  | None =>
                      let '(w5, err) := ClearFifo BothFifo w4 in
                      match err with
                      | Some e => abort_open e w5
                      | None => (w5, Done (Some dev, None))
                      end
                  end
              end
          end
      end
  end.

End Driver.

(** ** The Open sequence, step by step *)

Section OpenSteps.
Context {H : Type} {bus : I2C H}.

Definition Open_bus (conf : Config) : Z :=
  let '(_, _, _, bus, _) := Open_defaults conf in bus.

(** The device object [Open] constructs. *)
Definition Open_dev (conf : Config) : SC16IS7X0 :=
  let '(_, _, _, _, timeout) := Open_defaults conf in
  mkDev (XtalFreq conf) timeout.

Definition returning (f : World H -> World H * option error) (w : World H)
  : World H * outcome (option error) :=
  let '(w', e) := f w in (w', Done e).

(** The five steps [Open] runs once the handle is acquired, in order:
    self-test, baud programming, FIFO enable, line attributes, clearing of
    both FIFOs. *)
Definition Open_steps (conf : Config)
  : list (World H -> World H * outcome (option error)) :=
  let '(size, parityType, stopBits, _, _) := Open_defaults conf in
  [ returning testChip;
    setBaudRate (Open_dev conf) (Baud conf);
    returning (enableFifo true);
    returning (setUARTAttributes size stopBits parityType);
    returning (ClearFifo BothFifo) ].

(** Runs steps for as long as they return a nil error. *)
Fixpoint run_steps (steps : list (World H -> World H * outcome (option error)))
  (w : World H) : option (World H) :=
  match steps with
  | [] => Some w
  | step :: rest =>
      match step w with
      | (w', Done None) => run_steps rest w'
      | _ => None
      end
  end.

End OpenSteps.

(** ** A scripted bus double

    The state is the list of replies still to be given; every bus call
    consumes one.  When the script is exhausted the bus answers with value
    0 and no error. *)

Inductive Reply : Type := Rep (v : Z) (e : option buserr).

Definition next_reply (s : list Reply) : list Reply * (Z * option buserr) :=
  match s with
  | [] => ([], (0, None))
  | Rep v e :: s' => (s', (v, e))
  end.

#[export] Instance script_bus : I2C (list Reply) := {
  NewI2C _ _ s := let '(s', (_, e)) := next_reply s in (s', e);
  ReadRegU8 _ s := next_reply s;
  WriteRegU8 _ _ s := let '(s', (_, e)) := next_reply s in (s', e);
  I2C_Close s := let '(s', (_, e)) := next_reply s in (s', e)
}.

(** A clock advancing by one millisecond per reading. *)
Definition ms_clock (n : nat) : Z := Z.of_nat n * 1000000.

Definition boot (s : list Reply) : World (list Reply) := mkWorld s ms_clock 0 [].

Definition ok (v : Z) : Reply := Rep v None.
Definition ko (n : nat) : Reply := Rep 0 (Some (BusFault n)).


Definition dev0 : SC16IS7X0 := mkDev 14745600 Second.

(** ** Specification-side vocabulary *)

(** The parity code of the Line Control Register, bits 5:3. *)
Definition parity_code (parity : Z) : Z :=
  if parity =? ParityNone then 0
  else if parity =? ParityOdd then 1
  else if parity =? ParityEven then 3
  else if parity =? ParityMark then 5
  else if parity =? ParitySpace then 7
  else 0.

(** The raw address of a register: [byte(reg) << 3]. *)
Definition raw (reg : Z) : Z := u8 (Z.shiftl reg 3).

(** The FIFO-enabled flag as [ClearFifo] detects it in the value read from
    the Interrupt Identification Register. *)
Definition fifo_enabled (iir : Z) : bool := negb (Z.land iir 0xC0 =? 0).

Definition clears_rx (sel : Z) : bool := (sel =? RxDFifo) || (sel =? BothFifo).
Definition clears_tx (sel : Z) : bool := (sel =? TxDFifo) || (sel =? BothFifo).


(** ** Observations on traces *)

Definition is_reg_io (ev : Event) : bool :=
  match ev with EvRead _ _ _ | EvWrite _ _ _ => true | _ => false end.

(** Number of times the bus handle was closed. *)
Definition count_close (l : list Event) : nat := length (List.filter is_close l).

(** [w'] is reached from [w] by register reads and writes only. *)
Definition io_only {H : Type} (w w' : World H) : Prop :=
  exists evs, trace w' = trace w ++ evs /\ forallb is_reg_io evs = true.

(** A poll of the Line Status Register that succeeded and found bit
    [flag] clear, respectively set. *)
Definition poll_clear (flag : Z) (ev : Event) : bool :=
  match ev with
  | EvRead a v None => (a =? raw regLSR) && negb (Z.testbit v flag)
  | _ => false
  end.

Definition poll_set (flag : Z) (ev : Event) : bool :=
  match ev with
  | EvRead a v None => (a =? raw regLSR) && Z.testbit v flag
  | _ => false
  end.

(** The replies of the bus to [n] successive reads at raw address [a]. *)
Fixpoint bus_reads {H : Type} {bus : I2C H} (a : Z) (n : nat) (h : H)
  : H * list (Z * option buserr) :=
  match n with
  | O => (h, [])
  | S n' =>
      let '(h1, r) := ReadRegU8 a h in
      let '(h2, rs) := bus_reads a n' h1 in
      (h2, r :: rs)
  end.

(** The deadline of a poll loop entered in world [w]. *)
Definition deadline {H : Type} (v : SC16IS7X0) (w : World H) : Z :=
  clock w (ticks w) + timeout v.

(** A successful bus reply, and the event recorded for a successful read
    of the Receive Holding Register. *)
Definition good (b : Z) : Z * option buserr := (b, None).

Definition rhr_read (b : Z) : Event := EvRead (raw regRHR) (u8 b) None.

(** A device with a timeout of 1.5 ms, and sample configurations. *)
Definition dev_short : SC16IS7X0 := mkDev 14745600 1500000.

Definition conf_sample : Config := mkConfig 0x48 0 9600 14745600 0 0 0 0.
Definition conf_size9 : Config := mkConfig 0x48 0 9600 14745600 0 9 0 0.
Definition conf_baud0 : Config := mkConfig 0x48 0 0 14745600 0 0 0 0.

Definition is_read (ev : Event) : bool :=
  match ev with EvRead _ _ _ => true | _ => false end.

(** The event of a successful write of byte [c] to the Transmit Holding
    Register. *)
Definition thr_write (c : Z) : Event := EvWrite (raw regTHR) c None.

(** The transactions of [setBaudRate] that follow the read of the Modem
    Control Register, for divisor [d] and returned error [r]: the whole
    sequence when [r] is nil, the sequence up to and including the failed
    transaction otherwise. *)
Definition baud_transactions (d : Z) (r : option error) (evs : list Event) : Prop :=
  let set_latch l := EvWrite (raw regLCR) (Z.lor l 0x80) in
  let clear_latch l := EvWrite (raw regLCR) (Z.ldiff l 0x80) in
  let lo := EvWrite (raw regDLL) (d mod 256) in
  let hi := EvWrite (raw regDLH) ((d / 256) mod 256) in
  (exists l1 l2,
     r = None /\
     evs = [EvRead (raw regLCR) l1 None; set_latch l1 None; lo None; hi None;
            EvRead (raw regLCR) l2 None; clear_latch l2 None]) \/
  (exists b, r = Some (ErrBus b) /\
     ((exists l1, evs = [EvRead (raw regLCR) l1 (Some b)]) \/
      (exists l1, evs = [EvRead (raw regLCR) l1 None; set_latch l1 (Some b)]) \/
      (exists l1, evs = [EvRead (raw regLCR) l1 None; set_latch l1 None; lo (Some b)]) \/
      (exists l1, evs = [EvRead (raw regLCR) l1 None; set_latch l1 None; lo None;
                         hi (Some b)]) \/
      (exists l1 l2, evs = [EvRead (raw regLCR) l1 None; set_latch l1 None; lo None;
                            hi None; EvRead (raw regLCR) l2 (Some b)]) \/
      (exists l1 l2, evs = [EvRead (raw regLCR) l1 None; set_latch l1 None; lo None;
                            hi None; EvRead (raw regLCR) l2 None;
                            clear_latch l2 (Some b)]))).

(** The event of a successful poll of the Line Status Register. *)
Definition lsr_read (x : Z) : Event := EvRead (raw regLSR) (u8 x) None.

(** Every byte of [xs], as read from the Line Status Register, has bit
    [flag] clear. *)
Definition polls_clear (flag : Z) (xs : list Z) : bool :=
  forallb (fun x => negb (Z.testbit (u8 x) flag)) xs.

(** The [n] clock readings of index [start], [start + 1], ... are not
    past [limit]: the deadline check [limit < now] fails on each. *)
Definition readings_within (clk : nat -> Z) (start n : nat) (limit : Z) : bool :=
  forallb (fun j => clk j <=? limit) (seq start n).
(** ** Traces of the register primitives *)

Section Primitives.
Context {H : Type} {bus : I2C H}.
Implicit Types w : World H.

Lemma readReg_spec reg w :
  exists h v e,
    ReadRegU8 (raw reg) (hw w) = (h, (v, e)) /\
    readReg reg w = (record (EvRead (raw reg) (u8 v) e) h w, (u8 v, lift_err e)).
Proof.
  unfold readReg, raw. destruct (ReadRegU8 _ _) as [h [v e]]. eauto.
Qed.

Lemma writeReg_spec reg value w :
  exists h e,
    WriteRegU8 (raw reg) value (hw w) = (h, e) /\
    writeReg reg value w = (record (EvWrite (raw reg) value e) h w, lift_err e).
Proof.
  unfold writeReg, raw. destruct (WriteRegU8 _ _ _) as [h e]. eauto.
Qed.

Lemma lift_err_None e : lift_err e = None -> e = None.
Proof. destruct e; [discriminate | reflexivity]. Qed.

Lemma lift_err_Some e x : lift_err e = Some x -> exists b, e = Some b /\ x = ErrBus b.
Proof. destruct e; simpl; intros [= <-]; eauto. Qed.

Lemma io_refl w : io_only w w.
Proof. exists []. split; [symmetry; apply app_nil_r | reflexivity]. Qed.

Lemma io_trans w1 w2 w3 : io_only w1 w2 -> io_only w2 w3 -> io_only w1 w3.
Proof.
  intros (l1 & E1 & F1) (l2 & E2 & F2). exists (l1 ++ l2). split.
  - rewrite E2, E1, app_assoc. reflexivity.
  - rewrite forallb_app, F1, F2. reflexivity.
Qed.

Lemma io_readReg reg w : io_only w (fst (readReg reg w)).
Proof.
  destruct (readReg_spec reg w) as (h & v & e & _ & ->).
  eexists. split; reflexivity.
Qed.

Lemma io_writeReg reg value w : io_only w (fst (writeReg reg value w)).
Proof.
  destruct (writeReg_spec reg value w) as (h & e & _ & ->).
  eexists. split; reflexivity.
Qed.

Lemma io_updateRegBit reg flag value w : io_only w (fst (updateRegBit reg flag value w)).
Proof.
  unfold updateRegBit. pose proof (io_readReg reg w) as Hr.
  destruct (readReg reg w) as [w1 [flags [e|]]]; [exact Hr |].
  eapply io_trans; [exact Hr | apply io_writeReg].
Qed.

Lemma io_peekRegBit reg flag w : io_only w (fst (peekRegBit reg flag w)).
Proof.
  unfold peekRegBit. pose proof (io_readReg reg w) as Hr.
  destruct (readReg reg w) as [w1 [flags [e|]]]; exact Hr.
Qed.

Ltac io_call :=
  match goal with
  | |- context [readReg ?r ?w] =>
      generalize (io_readReg r w); destruct (readReg r w) as [? [? [?|]]]
  | |- context [writeReg ?r ?v ?w] =>
      generalize (io_writeReg r v w); destruct (writeReg r v w) as [? [?|]]
  | |- context [updateRegBit ?r ?f ?b ?w] =>
      generalize (io_updateRegBit r f b w);
      destruct (updateRegBit r f b w) as [? [?|]]
  | |- context [peekRegBit ?r ?f ?w] =>
      generalize (io_peekRegBit r f w);
      destruct (peekRegBit r f w) as [? [? [?|]]]
  end; cbn [fst snd]; intro.

Ltac io_close :=
  cbn [fst]; first [apply io_refl | repeat (eassumption || (eapply io_trans; [eassumption |]))].

Ltac io_chain := repeat io_call; io_close.

Lemma io_testChip w : io_only w (fst (testChip w)).
Proof.
  unfold testChip. io_chain.
  destruct (negb _); io_chain.
Qed.

Lemma io_setBaudRate v baud w : io_only w (fst (setBaudRate v baud w)).
Proof.
  unfold setBaudRate. io_call; [io_chain |].
  destruct (baud_divisor _ _ _); io_chain.
Qed.

Lemma io_enableFifo b w : io_only w (fst (enableFifo b w)).
Proof. unfold enableFifo. destruct b; apply io_writeReg. Qed.

Lemma io_setUARTAttributes d s p w : io_only w (fst (setUARTAttributes d s p w)).
Proof.
  unfold setUARTAttributes.
  repeat match goal with
         | |- context [if ?a =? ?b then _ else _] => destruct (a =? b)
         end; first [apply io_refl | apply io_writeReg].
Qed.

Lemma io_ClearFifo sel w : io_only w (fst (ClearFifo sel w)).
Proof. unfold ClearFifo. io_chain. Qed.

Lemma io_count_close w w' : io_only w w' -> count_close (trace w') = count_close (trace w).
Proof.
  intros (evs & -> & Hall). unfold count_close.
  rewrite List.filter_app, length_app.
  assert (Hnil : List.filter is_close evs = []).
  { induction evs as [| ev evs IH]; [reflexivity |].
    simpl in Hall. apply andb_true_iff in Hall as [Hev Hrest].
    destruct ev; try discriminate; simpl; auto. }
  rewrite Hnil. simpl. lia.
Qed.

End Primitives.

(** ** Line attributes *)

Section LineAttributes.
Context {H : Type} {bus : I2C H}.
Implicit Types w : World H.

Lemma setUARTAttributes_byte dataBits stopBits parity w :
  5 <= dataBits <= 8 ->
  exists lcr,
    setUARTAttributes dataBits stopBits parity w = writeReg regLCR lcr w /\
    Z.land lcr 3 = dataBits - 5 /\
    Z.testbit lcr 2 = negb (stopBits =? Stop1) /\
    Z.land (Z.shiftr lcr 3) 7 = parity_code parity /\
    Z.shiftr lcr 6 = 0.
Proof.
  intros Hd. unfold setUARTAttributes, parity_code.
  assert (Hc : dataBits = 5 \/ dataBits = 6 \/ dataBits = 7 \/ dataBits = 8) by lia.
  destruct Hc as [-> | [-> | [-> | ->]]]; simpl;
    destruct (stopBits =? Stop1); simpl;
    repeat match goal with
           | |- context [parity =? ?b] => destruct (parity =? b)
           end;
    eexists; (split; [reflexivity | repeat split; reflexivity]).
Qed.

(** C1. For data bits 5 to 8, any stop-bit value and any parity value,
    [setUARTAttributes] performs exactly one bus transaction, a write to
    the Line Control Register of a byte whose bits 1:0 are [dataBits - 5],
    whose bit 2 is set exactly when [stopBits] is not [Stop1], whose bits
    5:3 are the parity code (None 0, Odd 1, Even 3, Mark 5, Space 7, and 0
    for any other value) and whose bits 7:6 are clear; the error returned
    is the status of that write, so an unrecognised parity is no error. *)
Theorem setUARTAttributes_composes_lcr dataBits stopBits parity w :
  5 <= dataBits <= 8 ->
  exists lcr h e,
    WriteRegU8 (raw regLCR) lcr (hw w) = (h, e) /\
    setUARTAttributes dataBits stopBits parity w =
      (mkWorld h (clock w) (ticks w) (trace w ++ [EvWrite (raw regLCR) lcr e]),
       lift_err e) /\
    Z.land lcr 3 = dataBits - 5 /\
    Z.testbit lcr 2 = negb (stopBits =? Stop1) /\
    Z.land (Z.shiftr lcr 3) 7 = parity_code parity /\
    Z.shiftr lcr 6 = 0 /\
    (parity = ParityNone -> parity_code parity = 0) /\
    (parity = ParityOdd -> parity_code parity = 1) /\
    (parity = ParityEven -> parity_code parity = 3) /\
    (parity = ParityMark -> parity_code parity = 5) /\
    (parity = ParitySpace -> parity_code parity = 7) /\
    (parity <> ParityNone -> parity <> ParityOdd -> parity <> ParityEven ->
     parity <> ParityMark -> parity <> ParitySpace -> parity_code parity = 0).
Proof.
  intros Hd.
  destruct (setUARTAttributes_byte dataBits stopBits parity w Hd)
    as (lcr & Hrun & Hsz & Hst & Hpa & Hhi).
  destruct (writeReg_spec regLCR lcr w) as (h & e & Hbus & Hw).
  exists lcr, h, e. rewrite Hrun, Hw.
  repeat split; try assumption; try (intros ->; reflexivity).
  intros H1 H2 H3 H4 H5. unfold parity_code.
  repeat match goal with
         | |- context [?a =? ?b] => destruct (Z.eqb_spec a b); [congruence |]
         end.
  reflexivity.
Qed.

(** C6. For a data-bit count other than 5, 6, 7 and 8, [setUARTAttributes]
    returns [ErrUnsupportedDataBits] and leaves the world as it was: no bus
    transaction is issued. *)
Theorem setUARTAttributes_unsupported dataBits stopBits parity w :
  dataBits <> 5 -> dataBits <> 6 -> dataBits <> 7 -> dataBits <> 8 ->
  setUARTAttributes dataBits stopBits parity w = (w, Some ErrUnsupportedDataBits).
Proof.
  intros H5 H6 H7 H8. unfold setUARTAttributes.
  repeat match goal with
         | |- context [?a =? ?b] => destruct (Z.eqb_spec a b); [congruence |]
         end.
  reflexivity.
Qed.

End LineAttributes.

Lemma setUARTAttributes_composes_lcr_witness :
  exists lcr h e,
    WriteRegU8 (raw regLCR) lcr (hw (boot [ko 3])) = (h, e) /\
    setUARTAttributes 7 Stop2 ParityEven (boot [ko 3]) =
      (mkWorld h ms_clock 0 [EvWrite (raw regLCR) lcr e], lift_err e) /\
    Z.land lcr 3 = 2 /\
    Z.testbit lcr 2 = true /\
    Z.land (Z.shiftr lcr 3) 7 = 3.
Proof.
  destruct (setUARTAttributes_composes_lcr 7 Stop2 ParityEven (boot [ko 3]))
    as (lcr & h & e & H1 & H2 & H3 & H4 & H5 & _); [lia |].
  exists lcr, h, e. repeat split; assumption.
Defined.

Lemma setUARTAttributes_unsupported_witness :
  setUARTAttributes 9 Stop1 ParityNone (boot [ok 1]) =
    (boot [ok 1], Some ErrUnsupportedDataBits).
Proof.
  apply setUARTAttributes_unsupported; lia.
Defined.

(** ** FIFO clearing *)

Ltac bus_step :=
  match goal with
  | |- context [ReadRegU8 ?a ?h] =>
      destruct (ReadRegU8 a h) as [? [? [?|]]] eqn:?
  | |- context [WriteRegU8 ?a ?v ?h] =>
      destruct (WriteRegU8 a v h) as [? [?|]] eqn:?
  end; cbn [hw clock ticks trace record fst snd lift_err fmap option_fmap option_map].

Ltac trace_norm :=
  cbn [trace record hw clock ticks]; rewrite <- ?app_assoc; cbn [app].

Section Fifo.
Context {H : Type} {bus : I2C H}.
Implicit Types w : World H.

(** C5. For each of the selectors Receive, Transmit and Both, [ClearFifo]
    reads the Interrupt Identification Register; when that read succeeds
    it writes one byte to the FIFO Control Register whose bit 0 is the
    FIFO-enabled flag detected in the value read, whose bit 1 is set for
    Receive or Both and bit 2 for Transmit or Both, all other bits clear,
    so that with the flag detected the bytes are 3, 5 and 7; when the read
    fails the error is returned and nothing is written. *)
Theorem ClearFifo_control_byte sel w :
  sel = RxDFifo \/ sel = TxDFifo \/ sel = BothFifo ->
  exists h1 v e1,
    ReadRegU8 (raw regIIR) (hw w) = (h1, (v, e1)) /\
    match e1 with
    | Some b =>
        ClearFifo sel w =
          (mkWorld h1 (clock w) (ticks w)
             (trace w ++ [EvRead (raw regIIR) (u8 v) (Some b)]),
           Some (ErrBus b))
    | None =>
        exists fcr h2 e2,
          WriteRegU8 (raw regFCR) fcr h1 = (h2, e2) /\
          ClearFifo sel w =
            (mkWorld h2 (clock w) (ticks w)
               (trace w ++ [EvRead (raw regIIR) (u8 v) None;
                            EvWrite (raw regFCR) fcr e2]),
             lift_err e2) /\
          Z.testbit fcr 0 = fifo_enabled (u8 v) /\
          Z.testbit fcr 1 = clears_rx sel /\
          Z.testbit fcr 2 = clears_tx sel /\
          Z.shiftr fcr 3 = 0 /\
          (fifo_enabled (u8 v) = true ->
           (sel = RxDFifo -> fcr = 3) /\
           (sel = TxDFifo -> fcr = 5) /\
           (sel = BothFifo -> fcr = 7))
    end.
Proof.
  intros Hsel. unfold ClearFifo, readReg, writeReg. fold (raw regIIR) (raw regFCR).
  bus_step.
  - do 3 eexists. split; [reflexivity |]. reflexivity.
  - do 3 eexists. split; [reflexivity |].
    unfold fifo_enabled.
    destruct (negb (Z.land (u8 z) 192 =? 0)) eqn:Hen;
      destruct Hsel as [-> | [-> | ->]]; simpl;
      bus_step; unfold record; simpl; rewrite <- app_assoc; simpl;
      do 3 eexists; (split; [eassumption |]);
      (split; [reflexivity |]);
      repeat split; try reflexivity; intros; try discriminate.
Qed.

End Fifo.

(** ** Bit-level facts *)

Lemma land_pow2 x k :
  0 <= k -> Z.land x (2 ^ k) = if Z.testbit x k then 2 ^ k else 0.
Proof.
  intros Hk. apply Z.bits_inj'. intros n Hn.
  rewrite Z.land_spec, Z.pow2_bits_eqb by assumption.
  destruct (Z.eqb_spec k n) as [-> | Hne].
  - rewrite andb_true_r. destruct (Z.testbit x n) eqn:Hb.
    + rewrite Z.pow2_bits_eqb, Z.eqb_refl by assumption. reflexivity.
    + rewrite Z.bits_0. reflexivity.
  - rewrite andb_false_r. destruct (Z.testbit x k).
    + rewrite Z.pow2_bits_eqb by assumption.
      symmetry. apply Z.eqb_neq. assumption.
    + rewrite Z.bits_0. reflexivity.
Qed.

Lemma mask_test x k :
  0 <= k < 8 -> negb (Z.land x (u8 (Z.shiftl 1 k)) =? 0) = Z.testbit x k.
Proof.
  intros Hk.
  assert (Hm : u8 (Z.shiftl 1 k) = 2 ^ k).
  { assert (Hc : k = 0 \/ k = 1 \/ k = 2 \/ k = 3 \/ k = 4 \/ k = 5 \/ k = 6 \/ k = 7) by lia.
    destruct Hc as [-> | [-> | [-> | [-> | [-> | [-> | [-> | ->]]]]]]]; reflexivity. }
  rewrite Hm, land_pow2 by lia.
  destruct (Z.testbit x k); [| reflexivity].
  assert (0 < 2 ^ k) by (apply Z.pow_pos_nonneg; lia).
  destruct (Z.eqb_spec (2 ^ k) 0); [lia | reflexivity].
Qed.

Lemma low_byte d : u8 (Z.land d 0xFF) = d mod 256.
Proof.
  unfold u8. change 0xFF with (Z.ones 8).
  rewrite Z.land_ones by lia. change (2 ^ 8) with 256.
  apply Z.mod_mod. lia.
Qed.

Lemma high_byte d : u8 (Z.shiftr (Z.land d 0xFF00) 8) = (d / 256) mod 256.
Proof.
  unfold u8. rewrite Z.shiftr_land.
  change (Z.shiftr 0xFF00 8) with (Z.ones 8).
  rewrite Z.land_ones by lia. rewrite Z.shiftr_div_pow2 by lia.
  change (2 ^ 8) with 256. apply Z.mod_mod. lia.
Qed.

(** ** Baud rate *)

Section BaudRate.
Context {H : Type} {bus : I2C H}.
Implicit Types w : World H.

Lemma baud_divisor_exact xtal prescaler baud :
  0 < baud -> baud * 16 < 2 ^ 32 ->
  baud_divisor xtal prescaler baud = Some ((xtal / prescaler) / (baud * 16)).
Proof.
  intros Hpos Hlt. unfold baud_divisor, u32.
  rewrite Z.mod_small by lia.
  destruct (Z.eqb_spec (baud * 16) 0); [lia | reflexivity].
Qed.

(** Every run of [setBaudRate] in which the divisor is [d], described by
    its transactions after the read of the Modem Control Register. *)
Lemma setBaudRate_runs v baud w h1 mcr d w' r :
  ReadRegU8 (raw regMCR) (hw w) = (h1, (mcr, None)) ->
  baud_divisor (xtalFreq v) (if Z.testbit (u8 mcr) 7 then 4 else 1) baud = Some d ->
  setBaudRate v baud w = (w', Done r) ->
  let set_latch l := EvWrite (raw regLCR) (Z.lor l 0x80) in
  let clear_latch l := EvWrite (raw regLCR) (Z.ldiff l 0x80) in
  let lo := EvWrite (raw regDLL) (d mod 256) in
  let hi := EvWrite (raw regDLH) ((d / 256) mod 256) in
  exists evs,
  trace w' = trace w ++ EvRead (raw regMCR) (u8 mcr) None :: evs /\
  ((exists l1 l2,
     r = None /\
     evs = [EvRead (raw regLCR) l1 None; set_latch l1 None; lo None; hi None;
            EvRead (raw regLCR) l2 None; clear_latch l2 None]) \/
  (exists b, r = Some (ErrBus b) /\
     ((exists l1, evs = [EvRead (raw regLCR) l1 (Some b)]) \/
      (exists l1, evs = [EvRead (raw regLCR) l1 None; set_latch l1 (Some b)]) \/
      (exists l1, evs = [EvRead (raw regLCR) l1 None; set_latch l1 None; lo (Some b)]) \/
      (exists l1, evs = [EvRead (raw regLCR) l1 None; set_latch l1 None; lo None;
                         hi (Some b)]) \/
      (exists l1 l2, evs = [EvRead (raw regLCR) l1 None; set_latch l1 None; lo None;
                            hi None; EvRead (raw regLCR) l2 (Some b)]) \/
      (exists l1 l2, evs = [EvRead (raw regLCR) l1 None; set_latch l1 None; lo None;
                            hi None; EvRead (raw regLCR) l2 None;
                            clear_latch l2 (Some b)])))).
Proof.
  intros Hmcr Hd Hrun. cbv zeta.
  revert Hrun.
  unfold setBaudRate, peekRegBit, updateRegBit, readReg, writeReg.
  fold (raw regMCR) (raw regLCR) (raw regDLL) (raw regDLH).
  rewrite Hmcr. cbn [lift_err fmap option_fmap option_map].
  rewrite (mask_test (u8 mcr) 7) by lia. rewrite Hd.
  rewrite low_byte, high_byte.
  change (u8 (Z.shiftl 1 7)) with 0x80.
  repeat bus_step;
    intros [= <- <-]; trace_norm; eexists; (split; [reflexivity |]); eauto 12.
Qed.

Lemma setBaudRate_returns v baud w h1 mcr d :
  ReadRegU8 (raw regMCR) (hw w) = (h1, (mcr, None)) ->
  baud_divisor (xtalFreq v) (if Z.testbit (u8 mcr) 7 then 4 else 1) baud = Some d ->
  exists w' r, setBaudRate v baud w = (w', Done r).
Proof.
  intros Hmcr Hd.
  unfold setBaudRate, peekRegBit, updateRegBit, readReg, writeReg.
  fold (raw regMCR). rewrite Hmcr. cbn [lift_err fmap option_fmap option_map].
  rewrite (mask_test (u8 mcr) 7) by lia. rewrite Hd.
  repeat bus_step; eauto.
Qed.

(** C2 (amended). For a baud rate with [0 < baud] and [baud * 16 < 2^32],
    once the Modem Control Register has been read, [setBaudRate] computes
    the divisor [(xtalFreq / prescaler) / (baud * 16)] by truncating
    division, with prescaler 4 when bit 7 of the value read is set and 1
    otherwise.  It does not panic.  On every bus its transactions are the
    read of the Modem Control Register, the setting of Line Control
    Register bit 7, the write of the divisor's low byte to the
    divisor-latch low register, of its high byte to the divisor-latch
    high register, and the clearing of Line Control Register bit 7, cut
    short at the first transaction that fails; and when the bus answers
    those transactions without error up to the last write, the run is
    exactly that sequence and its result is the status of the last write.
    For a crystal of 14745600 Hz, 9600 baud and prescaler 1 the divisor
    is 96 and the two bytes are 96 and 0. *)
Theorem setBaudRate_divisor v baud w h1 mcr :
  0 <= xtalFreq v < 2 ^ 32 -> 0 < baud -> baud * 16 < 2 ^ 32 ->
  ReadRegU8 (raw regMCR) (hw w) = (h1, (mcr, None)) ->
  let prescaler := if Z.testbit (u8 mcr) 7 then 4 else 1 in
  let divisor := (xtalFreq v / prescaler) / (baud * 16) in
  baud_divisor (xtalFreq v) prescaler baud = Some divisor /\
  (exists w' r evs,
     setBaudRate v baud w = (w', Done r) /\
     trace w' = trace w ++ EvRead (raw regMCR) (u8 mcr) None :: evs /\
     baud_transactions divisor r evs) /\
  (forall h2 l1 h3 h4 h5 h6 l2 h7 e,
     ReadRegU8 (raw regLCR) h1 = (h2, (l1, None)) ->
     WriteRegU8 (raw regLCR) (Z.lor (u8 l1) 0x80) h2 = (h3, None) ->
     WriteRegU8 (raw regDLL) (divisor mod 256) h3 = (h4, None) ->
     WriteRegU8 (raw regDLH) ((divisor / 256) mod 256) h4 = (h5, None) ->
     ReadRegU8 (raw regLCR) h5 = (h6, (l2, None)) ->
     WriteRegU8 (raw regLCR) (Z.ldiff (u8 l2) 0x80) h6 = (h7, e) ->
     setBaudRate v baud w =
       (mkWorld h7 (clock w) (ticks w)
          (trace w ++
             [EvRead (raw regMCR) (u8 mcr) None;
              EvRead (raw regLCR) (u8 l1) None;
              EvWrite (raw regLCR) (Z.lor (u8 l1) 0x80) None;
              EvWrite (raw regDLL) (divisor mod 256) None;
              EvWrite (raw regDLH) ((divisor / 256) mod 256) None;
              EvRead (raw regLCR) (u8 l2) None;
              EvWrite (raw regLCR) (Z.ldiff (u8 l2) 0x80) e]),
        Done (lift_err e))) /\
  (xtalFreq v = 14745600 -> baud = 9600 -> Z.testbit (u8 mcr) 7 = false ->
   divisor = 96 /\ divisor mod 256 = 96 /\ (divisor / 256) mod 256 = 0).
Proof.
  intros Hx Hpos Hlt Hmcr prescaler divisor.
  assert (Hdiv : baud_divisor (xtalFreq v) prescaler baud = Some divisor)
    by (apply baud_divisor_exact; assumption).
  split; [exact Hdiv |]. split; [| split].
  - destruct (setBaudRate_returns v baud w h1 mcr divisor Hmcr Hdiv) as (w' & r & Hrun).
    destruct (setBaudRate_runs v baud w h1 mcr divisor w' r Hmcr Hdiv Hrun)
      as (evs & Htr & Hcases).
    exists w', r, evs. split; [exact Hrun |]. split; [exact Htr | exact Hcases].
  - intros h2 l1 h3 h4 h5 h6 l2 h7 e H2 H3 H4 H5 H6 H7.
    unfold setBaudRate, peekRegBit, updateRegBit, readReg, writeReg.
    fold (raw regMCR) (raw regLCR) (raw regDLL) (raw regDLH).
    rewrite Hmcr. cbn [lift_err fmap option_fmap option_map].
    rewrite (mask_test (u8 mcr) 7) by lia.
    fold prescaler. rewrite Hdiv.
    rewrite low_byte, high_byte.
    change (u8 (Z.shiftl 1 7)) with 0x80.
    cbn [hw record]. rewrite H2.
    cbn [lift_err fmap option_fmap option_map hw record]. rewrite H3.
    cbn [lift_err fmap option_fmap option_map hw record]. rewrite H4.
    cbn [lift_err fmap option_fmap option_map hw record]. rewrite H5.
    cbn [lift_err fmap option_fmap option_map hw record]. rewrite H6.
    cbn [lift_err fmap option_fmap option_map hw record]. rewrite H7.
    destruct e; cbn [lift_err fmap option_fmap option_map];
      unfold record; cbn [hw clock ticks trace];
      rewrite <- !app_assoc; reflexivity.
  - intros Hxt -> Hbit. subst divisor prescaler. rewrite Hxt, Hbit.
    repeat split; reflexivity.
Qed.

(** C9. The divisor computation has no guard: for [baud = 0] the division
    [(xtalFreq / prescaler) / (baud * 16)] is a division by zero, so once
    the Modem Control Register has been read [setBaudRate] panics instead
    of returning an error; [Open] passes [conf.Baud] on without a default,
    so with a zero [Baud] it panics as soon as the self-test has passed,
    and the bus handle is left open. *)
Theorem setBaudRate_zero_baud_panics v w :
  (forall xtal prescaler, baud_divisor xtal prescaler 0 = None) /\
  (forall w1 clkDiv,
     peekRegBit regMCR 7 w = (w1, (clkDiv, None)) ->
     setBaudRate v 0 w = (w1, Panic)) /\
  (forall conf h w1 w2 clkDiv,
     Baud conf = 0 ->
     NewI2C (Address conf) (Open_bus conf) (hw w) = (h, None) ->
     testChip (record (EvNew (Address conf) (Open_bus conf) None) h w)
       = (w1, None) ->
     peekRegBit regMCR 7 w1 = (w2, (clkDiv, None)) ->
     Open conf w = (w2, Panic) /\
     count_close (trace w2) = count_close (trace w)).
Proof.
  split; [reflexivity |]. split.
  - intros w1 clkDiv Hpeek. unfold setBaudRate. rewrite Hpeek.
    destruct clkDiv; reflexivity.
  - intros conf h w1 w2 clkDiv Hbaud Hnew Htest Hpeek.
    assert (Hsb : forall d, setBaudRate d 0 w1 = (w2, Panic)).
    { intros d. unfold setBaudRate. rewrite Hpeek. destruct clkDiv; reflexivity. }
    split.
    + unfold Open_bus in Hnew, Htest. unfold Open, Open_defaults in *.
      rewrite Hnew, Htest, Hbaud, Hsb. reflexivity.
    + pose proof (io_testChip (record (EvNew (Address conf) (Open_bus conf) None) h w)) as Ht.
      pose proof (io_peekRegBit regMCR 7 w1) as Hp.
      rewrite Htest in Ht. rewrite Hpeek in Hp. cbn [fst] in Ht, Hp.
      rewrite (io_count_close _ _ (io_trans _ _ _ Ht Hp)).
      unfold count_close, record. cbn [trace].
      rewrite List.filter_app, length_app. simpl. lia.
Qed.

End BaudRate.

Lemma setBaudRate_divisor_witness :
  baud_divisor 14745600 1 9600 = Some 96 /\
  setBaudRate dev0 9600 (boot []) =
    (mkWorld [] ms_clock 0
       [EvRead (raw regMCR) 0 None;
        EvRead (raw regLCR) 0 None; EvWrite (raw regLCR) 0x80 None;
        EvWrite (raw regDLL) 96 None; EvWrite (raw regDLH) 0 None;
        EvRead (raw regLCR) 0 None; EvWrite (raw regLCR) 0 None],
     Done None).
Proof.
  destruct (setBaudRate_divisor dev0 9600 (boot []) [] 0) as (H1 & _ & Hrun & _);
    [simpl; lia | lia | lia | reflexivity |].
  split; [exact H1 |].
  exact (Hrun [] 0 [] [] [] [] 0 [] None eq_refl eq_refl eq_refl eq_refl eq_refl eq_refl).
Defined.

(** The claim fails for a baud rate whose product by 16 exceeds 32 bits:
    [268435457 * 16] wraps to 16, the divisor is [14745600 / 16 = 921600]
    and the divisor-latch high register receives 16, where the unbounded
    quotient [14745600 / (268435457 * 16)] is 0. *)
Lemma setBaudRate_divisor_wraps :
  baud_divisor 14745600 1 268435457 = Some 921600 /\
  (14745600 / 1) / (268435457 * 16) = 0 /\
  trace (fst (setBaudRate dev0 268435457 (boot []))) =
    [EvRead (raw regMCR) 0 None;
     EvRead (raw regLCR) 0 None; EvWrite (raw regLCR) 0x80 None;
     EvWrite (raw regDLL) 0 None; EvWrite (raw regDLH) 16 None;
     EvRead (raw regLCR) 0 None; EvWrite (raw regLCR) 0 None] /\
  snd (setBaudRate dev0 268435457 (boot [])) = Done None.
Proof. repeat split; reflexivity. Qed.

(** ** The Open sequence *)

Section OpenSequence.
Context {H : Type} {bus : I2C H}.
Implicit Types w : World H.

Lemma io_returning (f : World H -> World H * option error) :
  (forall w, io_only w (fst (f w))) ->
  forall w, io_only w (fst (returning f w)).
Proof.
  intros Hf w. unfold returning. specialize (Hf w).
  destruct (f w) as [w' e]. exact Hf.
Qed.

Lemma io_Open_steps conf step :
  In step (Open_steps conf) -> forall w, io_only w (fst (step w)).
Proof.
  unfold Open_steps, Open_defaults. simpl.
  intros [<- | [<- | [<- | [<- | [<- | []]]]]].
  - apply io_returning, io_testChip.
  - apply io_setBaudRate.
  - apply io_returning, io_enableFifo.
  - apply io_returning, io_setUARTAttributes.
  - apply io_returning, io_ClearFifo.
Qed.

Lemma io_run_steps steps w w' :
  (forall step, In step steps -> forall w0, io_only w0 (fst (step w0))) ->
  run_steps steps w = Some w' -> io_only w w'.
Proof.
  revert w. induction steps as [| step rest IH]; intros w Hio Hrun.
  - injection Hrun as <-. apply io_refl.
  - simpl in Hrun. pose proof (Hio step (or_introl eq_refl) w) as Hs.
    destruct (step w) as [w1 [[e|]|]]; try discriminate.
    eapply io_trans; [exact Hs |].
    apply IH; [| exact Hrun]. intros s Hin. apply Hio. right. exact Hin.
Qed.

Lemma Open_aborts conf w h k step wk wf e :
  NewI2C (Address conf) (Open_bus conf) (hw w) = (h, None) ->
  Open_steps conf !! k = Some step ->
  run_steps (take k (Open_steps conf))
    (record (EvNew (Address conf) (Open_bus conf) None) h w) = Some wk ->
  step wk = (wf, Done (Some e)) ->
  Open conf w = abort_open e wf.
Proof.
  intros Hnew Hk Hrun Hstep.
  unfold Open. unfold Open_steps, Open_bus, Open_dev in *.
  unfold Open_defaults in *. rewrite Hnew.
  destruct k as [| [| [| [| [| k]]]]]; simpl in Hk; try discriminate;
    injection Hk as <-; cbn [take run_steps] in Hrun; unfold returning in *;
    revert Hrun Hstep.
  - intros [= <-]. destruct (testChip _) as [w1 [e1|]]; intros [= <- <-].
    reflexivity.
  - destruct (testChip _) as [w1 [e1|]]; try discriminate.
    intros [= <-] ->. reflexivity.
  - destruct (testChip _) as [w1 [e1|]]; try discriminate.
    destruct (setBaudRate _ _ w1) as [w2 [[e2|]|]]; try discriminate.
    intros [= <-]. destruct (enableFifo true w2) as [w3 [e3|]]; intros [= <- <-].
    reflexivity.
  - destruct (testChip _) as [w1 [e1|]]; try discriminate.
    destruct (setBaudRate _ _ w1) as [w2 [[e2|]|]]; try discriminate.
    destruct (enableFifo true w2) as [w3 [e3|]]; try discriminate.
    intros [= <-].
    destruct (setUARTAttributes _ _ _ w3) as [w4 [e4|]]; intros [= <- <-].
    reflexivity.
  - destruct (testChip _) as [w1 [e1|]]; try discriminate.
    destruct (setBaudRate _ _ w1) as [w2 [[e2|]|]]; try discriminate.
    destruct (enableFifo true w2) as [w3 [e3|]]; try discriminate.
    destruct (setUARTAttributes _ _ _ w3) as [w4 [e4|]]; try discriminate.
    intros [= <-].
    destruct (ClearFifo BothFifo w4) as [w5 [e5|]]; intros [= <- <-].
    reflexivity.
Qed.

(** C3. Once the bus handle is acquired, if the step of index [k] of the
    Open sequence (self-test, baud programming, FIFO enable, line
    attributes, clearing of both FIFOs) returns an error after all earlier
    steps returned none, [Open] closes the handle, returns that error and
    no device object, and the handle has been closed exactly once: the
    steps themselves issue register reads and writes only.  In particular,
    when the scratchpad reads back a value other than the test value,
    [Open] returns [ErrorScratchpad] and its only bus transactions are the
    acquisition, the scratchpad write, the scratchpad read and the close. *)
Theorem Open_failure_closes_once conf w h :
  NewI2C (Address conf) (Open_bus conf) (hw w) = (h, None) ->
  let w0 := record (EvNew (Address conf) (Open_bus conf) None) h w in
  (forall k step wk wf e,
     Open_steps conf !! k = Some step ->
     run_steps (take k (Open_steps conf)) w0 = Some wk ->
     step wk = (wf, Done (Some e)) ->
     exists hc ec,
       I2C_Close (hw wf) = (hc, ec) /\
       Open conf w = (record (EvClose ec) hc wf, Done (None, Some e)) /\
       io_only w0 wf /\
       count_close (trace (record (EvClose ec) hc wf)) = S (count_close (trace w))) /\
  (forall h1 h2 rv,
     WriteRegU8 (raw regSPR) testValue h = (h1, None) ->
     ReadRegU8 (raw regSPR) h1 = (h2, (rv, None)) ->
     u8 rv <> testValue ->
     exists hc ec,
       I2C_Close h2 = (hc, ec) /\
       Open conf w =
         (mkWorld hc (clock w) (ticks w)
            (trace w ++ [EvNew (Address conf) (Open_bus conf) None;
                         EvWrite (raw regSPR) testValue None;
                         EvRead (raw regSPR) (u8 rv) None;
                         EvClose ec]),
          Done (None, Some ErrorScratchpad))).
Proof.
  intros Hnew w0. split.
  - intros k step wk wf e Hk Hrun Hstep.
    destruct (I2C_Close (hw wf)) as [hc ec] eqn:Hclose.
    exists hc, ec. split; [reflexivity |].
    assert (Hio : io_only w0 wf).
    { eapply io_trans.
      - eapply io_run_steps; [| exact Hrun].
        intros s Hin. apply io_Open_steps with (conf := conf).
        apply list_elem_of_In. apply list_elem_of_In in Hin.
        exact (subseteq_take k _ _ Hin).
      - pose proof (io_Open_steps conf step) as Hs.
        assert (Hin : In step (Open_steps conf))
          by (apply list_elem_of_In; eapply list_elem_of_lookup_2; exact Hk).
        specialize (Hs Hin wk). rewrite Hstep in Hs. exact Hs. }
    split; [| split; [exact Hio |]].
    + rewrite (Open_aborts conf w h k step wk wf e Hnew Hk Hrun Hstep).
      unfold abort_open, Close. rewrite Hclose. reflexivity.
    + unfold count_close at 1. cbn [trace record].
      rewrite List.filter_app, length_app. fold (count_close (trace wf)).
      rewrite (io_count_close _ _ Hio). subst w0.
      unfold count_close at 1. cbn [trace record].
      rewrite List.filter_app, length_app. fold (count_close (trace w)).
      simpl. lia.
  - intros h1 h2 rv Hwr Hrd Hne.
    destruct (I2C_Close h2) as [hc ec] eqn:Hclose.
    exists hc, ec. split; [reflexivity |].
    unfold Open. unfold Open_bus in *. unfold Open_defaults in *.
    rewrite Hnew. unfold testChip, readReg, writeReg.
    fold (raw regSPR). cbn [hw record]. rewrite Hwr.
    cbn [lift_err fmap option_fmap option_map hw record].
    rewrite Hrd. cbn [lift_err fmap option_fmap option_map].
    destruct (Z.eqb_spec (u8 rv) testValue) as [Heq | _]; [contradiction |].
    cbn [negb]. unfold abort_open, Close, record. cbn [fst hw trace clock ticks].
    rewrite Hclose. rewrite <- !app_assoc. reflexivity.
Qed.

End OpenSequence.

(** ** Poll loops *)

Section Polling.
Context {H : Type} {bus : I2C H}.
Implicit Types w : World H.

(** What a terminated poll loop has done: [clear] are the polls that found
    the bit clear, each followed by one clock reading; [last] is the poll
    that ended the loop, if any. *)
Lemma poll_spec flag limit fuel w w' r :
  0 <= flag < 8 ->
  poll flag limit fuel w = Some (w', r) ->
  exists clear last,
    clock w' = clock w /\
    ticks w' = (ticks w + length clear)%nat /\
    trace w' = trace w ++ clear ++ last /\
    forallb (poll_clear flag) clear = true /\
    match r with
    | PollReady =>
        exists v, last = [EvRead (raw regLSR) v None] /\ Z.testbit v flag = true
    | PollFail x =>
        exists v b, last = [EvRead (raw regLSR) v (Some b)] /\ x = ErrBus b
    | PollTimeout =>
        last = [] /\ clear <> [] /\ limit < clock w (ticks w + length clear - 1)%nat
    end.
Proof.
  intros Hflag. revert w. induction fuel as [| fuel IH]; intros w Hp; [discriminate |].
  simpl in Hp. unfold peekRegBit, readReg in Hp. fold (raw regLSR) in Hp.
  destruct (ReadRegU8 (raw regLSR) (hw w)) as [h [v [b |]]] eqn:Hrd;
    cbn [lift_err fmap option_fmap option_map] in Hp.
  - injection Hp as <- <-.
    exists [], [EvRead (raw regLSR) (u8 v) (Some b)]. cbn.
    repeat split; eauto; lia.
  - rewrite (mask_test (u8 v) flag Hflag) in Hp.
    destruct (Z.testbit (u8 v) flag) eqn:Hbit.
    + injection Hp as <- <-.
      exists [], [EvRead (raw regLSR) (u8 v) None]. cbn.
      repeat split; eauto; lia.
    + cbn [time_Now record hw clock ticks trace] in Hp.
      assert (Hev : poll_clear flag (EvRead (raw regLSR) (u8 v) None) = true).
      { unfold poll_clear. rewrite Z.eqb_refl, Hbit. reflexivity. }
      destruct (limit <? clock w (ticks w)) eqn:Hlate.
      * injection Hp as <- <-.
        exists [EvRead (raw regLSR) (u8 v) None], []. cbn [clock ticks trace length].
        repeat split.
        -- lia.
        -- cbn [forallb]. rewrite Hev. reflexivity.
        -- discriminate.
        -- replace (ticks w + 1 - 1)%nat with (ticks w) by lia.
           apply Z.ltb_lt. exact Hlate.
      * apply IH in Hp as (clear & last & Hc & Ht & Htr & Hall & Hr).
        cbn [clock ticks trace] in Hc, Ht, Htr, Hr.
        exists (EvRead (raw regLSR) (u8 v) None :: clear), last.
        repeat split.
        -- exact Hc.
        -- rewrite Ht. cbn [length]. lia.
        -- rewrite Htr, <- app_assoc. reflexivity.
        -- cbn [forallb]. rewrite Hev. exact Hall.
        -- destruct r; try exact Hr.
           destruct Hr as (Hl & Hne & Hlim). repeat split; [exact Hl | discriminate |].
           cbn [length].
           replace (ticks w + S (length clear) - 1)%nat
             with (S (ticks w) + length clear - 1)%nat by lia.
           exact Hlim.
Qed.

Lemma peekRegBit_clock reg flag w :
  clock (fst (peekRegBit reg flag w)) = clock w /\
  ticks (fst (peekRegBit reg flag w)) = ticks w.
Proof.
  unfold peekRegBit, readReg.
  destruct (ReadRegU8 _ _) as [h [v [b |]]]; split; reflexivity.
Qed.

(** The loop ends within [k + 1] iterations once the clock reading of
    index [k] after entry is past the limit, whatever the bus answers. *)
Lemma poll_terminates flag limit k :
  forall fuel w,
    limit < clock w (ticks w + k)%nat -> (k < fuel)%nat ->
    poll flag limit fuel w <> None.
Proof.
  induction k as [| k IH]; intros fuel w Hlate Hfuel;
    (destruct fuel as [| fuel]; [lia |]); cbn [poll];
    generalize (peekRegBit_clock regLSR flag w);
    destruct (peekRegBit regLSR flag w) as [w1 [ready [e |]]];
    cbn [fst]; intros [Hc Ht]; try discriminate;
    destruct ready; try discriminate;
    cbn [time_Now]; rewrite Hc, Ht.
  - replace (ticks w + 0)%nat with (ticks w) in Hlate by lia.
    apply Z.ltb_lt in Hlate. rewrite Hlate. discriminate.
  - destruct (limit <? clock w (ticks w)); [discriminate |].
    apply IH; [| lia]. cbn [clock ticks].
    replace (S (ticks w) + k)%nat with (ticks w + S k)%nat by lia. exact Hlate.
Qed.

End Polling.

(** ** Read path *)

Section ReadPath.
Context {H : Type} {bus : I2C H}.
Implicit Types w : World H.

Lemma bus_reads_length a n : forall h, length (snd (bus_reads a n h)) = n.
Proof.
  induction n as [| n IH]; intros h; [reflexivity |]. simpl.
  destruct (ReadRegU8 a h) as [h1 r]. specialize (IH h1).
  destruct (bus_reads a n h1) as [h2 rs]. simpl in *. lia.
Qed.

Lemma ReadByte_bus w h b e :
  ReadRegU8 (raw regRHR) (hw w) = (h, (b, e)) ->
  ReadByte w = (record (EvRead (raw regRHR) (u8 b) e) h w, (u8 b, lift_err e)).
Proof.
  intros Hrd. unfold ReadByte, readReg. fold (raw regRHR). rewrite Hrd. reflexivity.
Qed.

Lemma insert_split (p : list Z) j x :
  (j < length p)%nat ->
  take (S j) (<[j:=x]> p) = take j p ++ [x] /\
  forall m, (j < m)%nat -> drop m (<[j:=x]> p) = drop m p.
Proof.
  intros Hj. split.
  - rewrite (take_S_r _ _ x) by (apply list_lookup_insert_eq; exact Hj).
    rewrite take_insert_ge by lia. reflexivity.
  - intros m Hm. apply drop_insert_lt. exact Hm.
Qed.

(** The copy loop over [length data] successful reads. *)
Lemma Read_copy_ok rlen data :
  forall j p w h',
    bus_reads (raw regRHR) (length data) (hw w) = (h', map good data) ->
    (j + length data <= length p)%nat ->
    Read_copy rlen (length data) (Z.of_nat j) p w =
      (mkWorld h' (clock w) (ticks w) (trace w ++ map rhr_read data),
       (take j p ++ map u8 data ++ drop (j + length data) p, rlen, None)).
Proof.
  induction data as [| b data IH]; intros j p w h' Hbus Hlen.
  - simpl in *. injection Hbus as <-. destruct w as [h c t tr]. simpl.
    rewrite app_nil_r, Nat.add_0_r, take_drop. reflexivity.
  - cbn [length bus_reads map] in Hbus. cbn [length] in Hlen.
    destruct (ReadRegU8 (raw regRHR) (hw w)) as [h1 r] eqn:Hrd.
    destruct (bus_reads (raw regRHR) (length data) h1) as [h2 rs] eqn:Hrest.
    unfold good at 1 in Hbus. injection Hbus as <- -> ->.
    cbn [length Read_copy]. rewrite (ReadByte_bus _ _ _ _ Hrd).
    cbn [lift_err fmap option_fmap option_map].
    replace (Z.of_nat j + 1) with (Z.of_nat (S j)) by lia. rewrite Nat2Z.id.
    rewrite (IH (S j) (<[j:=u8 b]> p)
               (record (EvRead (raw regRHR) (u8 b) None) h1 w) h2);
      [| exact Hrest | rewrite length_insert; lia].
    destruct (insert_split p j (u8 b)) as [Htake Hdrop]; [lia |].
    rewrite Htake, Hdrop by lia. cbn [record clock ticks trace map].
    rewrite <- !app_assoc. cbn [app].
    replace (S j + length data)%nat with (j + S (length data))%nat by lia.
    reflexivity.
Qed.

(** The copy loop when the read of index [length data] fails. *)
Lemma Read_copy_fail rlen data bad b :
  forall n j p w h',
    bus_reads (raw regRHR) (S (length data)) (hw w) =
      (h', map good data ++ [(bad, Some b)]) ->
    (length data < n)%nat ->
    (j + n <= length p)%nat ->
    Read_copy rlen n (Z.of_nat j) p w =
      (mkWorld h' (clock w) (ticks w)
         (trace w ++ map rhr_read data ++ [EvRead (raw regRHR) (u8 bad) (Some b)]),
       (take j p ++ map u8 data ++ u8 bad :: drop (S (j + length data)) p,
        Z.of_nat (j + length data), Some (ErrBus b))).
Proof.
  induction data as [| x data IH]; intros n j p w h' Hbus Hn Hlen;
    (destruct n as [| n]; [cbn [length] in Hn; lia |]);
    cbn [length bus_reads map app] in Hbus;
    destruct (ReadRegU8 (raw regRHR) (hw w)) as [h1 r] eqn:Hrd.
  - injection Hbus as <- ->.
    cbn [Read_copy]. rewrite (ReadByte_bus _ _ _ _ Hrd).
    cbn [lift_err fmap option_fmap option_map length map app].
    rewrite Nat2Z.id, Nat.add_0_r.
    rewrite (insert_take_drop p j (u8 bad)) by lia. reflexivity.
  - destruct (ReadRegU8 (raw regRHR) h1) as [h2 r2] eqn:Hrd2.
    destruct (bus_reads (raw regRHR) (length data) h2) as [h3 rs] eqn:Hrest.
    injection Hbus as <- -> Hr2.
    cbn [Read_copy]. rewrite (ReadByte_bus _ _ _ _ Hrd).
    cbn [lift_err fmap option_fmap option_map].
    replace (Z.of_nat j + 1) with (Z.of_nat (S j)) by lia. rewrite Nat2Z.id.
    cbn [length] in Hn.
    rewrite (IH n (S j) _ (record (EvRead (raw regRHR) (u8 x) None) h1 w) h3).
    + destruct (insert_split p j (u8 x)) as [Htake Hdrop]; [lia |].
      rewrite Htake, Hdrop by lia. cbn [record clock ticks trace map length].
      rewrite <- !app_assoc. cbn [app].
      replace (S j + length data)%nat with (j + S (length data))%nat by lia.
      reflexivity.
    + cbn [hw record bus_reads]. rewrite Hrd2, Hrest. rewrite Hr2. reflexivity.
    + lia.
    + rewrite length_insert. lia.
Qed.

Lemma Read_after_poll v p fuel w w1 h2 lv :
  poll 0 (deadline v w) fuel (fst (time_Now w)) = Some (w1, PollReady) ->
  ReadRegU8 (raw regRXLVL) (hw w1) = (h2, (lv, None)) ->
  let rlen := Z.min (Z.of_nat (length p)) (u8 lv) in
  Read v p fuel w =
    Some (Read_copy rlen (Z.to_nat rlen) 0 p
            (record (EvRead (raw regRXLVL) (u8 lv) None) h2 w1)).
Proof.
  intros Hpoll Hlv rlen. unfold Read, deadline in *. cbn [time_Now fst] in *.
  rewrite Hpoll. unfold fifoDataLength, readReg. fold (raw regRXLVL).
  rewrite Hlv. cbn [lift_err fmap option_fmap option_map].
  assert (Hmin : (if Z.of_nat (length p) <? u8 lv then Z.of_nat (length p) else u8 lv)
                 = Z.min (Z.of_nat (length p)) (u8 lv))
    by (destruct (Z.ltb_spec (Z.of_nat (length p)) (u8 lv)); lia).
  rewrite Hmin. reflexivity.
Qed.

(** C4. When the data-ready poll succeeds, the read of the receive-FIFO
    level register succeeds with level [lv], and the following
    [min (len p) lv] reads of the Receive Holding Register succeed and
    return the bytes [data], [Read] issues exactly those register reads,
    one per byte, stores the bytes at the head of the buffer, leaves the
    rest of the buffer as it was, and returns the count [min (len p) lv]
    with no error. *)
Theorem Read_min_count v p fuel w w1 h2 lv h3 data :
  poll 0 (deadline v w) fuel (fst (time_Now w)) = Some (w1, PollReady) ->
  ReadRegU8 (raw regRXLVL) (hw w1) = (h2, (lv, None)) ->
  let n := Z.min (Z.of_nat (length p)) (u8 lv) in
  bus_reads (raw regRHR) (Z.to_nat n) h2 = (h3, map good data) ->
  Z.of_nat (length data) = n /\
  Read v p fuel w =
    Some (mkWorld h3 (clock w1) (ticks w1)
            (trace w1 ++ EvRead (raw regRXLVL) (u8 lv) None :: map rhr_read data),
          (map u8 data ++ drop (Z.to_nat n) p, n, None)).
Proof.
  intros Hpoll Hlv n Hbus.
  assert (Hn0 : 0 <= n).
  { subst n. unfold u8. pose proof (Z.mod_pos_bound lv 256). lia. }
  assert (Hlen : length data = Z.to_nat n).
  { pose proof (bus_reads_length (raw regRHR) (Z.to_nat n) h2) as Hl.
    rewrite Hbus in Hl. cbn [snd] in Hl. rewrite length_map in Hl. exact Hl. }
  split; [lia |].
  rewrite (Read_after_poll v p fuel w w1 h2 lv Hpoll Hlv). fold n.
  rewrite <- Hlen in Hbus |- *.
  change 0 with (Z.of_nat 0).
  rewrite (Read_copy_ok n data 0 p _ h3).
  - cbn [record clock ticks trace take app]. rewrite <- app_assoc. reflexivity.
  - exact Hbus.
  - subst n. lia.
Qed.

(** C7. When the data-ready poll and the FIFO-level query have succeeded
    and, while copying, [length data] reads of the Receive Holding Register
    succeed and the next one fails with a bus error, [Read] stops there and
    returns the count [length data] of bytes read so far together with
    that error. *)
Theorem Read_partial_count v p fuel w w1 h2 lv h3 data bad b :
  poll 0 (deadline v w) fuel (fst (time_Now w)) = Some (w1, PollReady) ->
  ReadRegU8 (raw regRXLVL) (hw w1) = (h2, (lv, None)) ->
  Z.of_nat (length data) < Z.min (Z.of_nat (length p)) (u8 lv) ->
  bus_reads (raw regRHR) (S (length data)) h2 =
    (h3, map good data ++ [(bad, Some b)]) ->
  Read v p fuel w =
    Some (mkWorld h3 (clock w1) (ticks w1)
            (trace w1 ++ EvRead (raw regRXLVL) (u8 lv) None ::
               map rhr_read data ++ [EvRead (raw regRHR) (u8 bad) (Some b)]),
          (map u8 data ++ u8 bad :: drop (S (length data)) p,
           Z.of_nat (length data), Some (ErrBus b))).
Proof.
  intros Hpoll Hlv Hk Hbus.
  rewrite (Read_after_poll v p fuel w w1 h2 lv Hpoll Hlv).
  change 0 with (Z.of_nat 0).
  rewrite (Read_copy_fail _ data bad b _ 0 p _ h3).
  - cbn [record clock ticks trace take app Nat.add]. rewrite <- app_assoc. reflexivity.
  - exact Hbus.
  - lia.
  - lia.
Qed.

End ReadPath.

(** ** Outcomes of the byte-stream operations *)

Section Outcomes.
Context {H : Type} {bus : I2C H}.
Implicit Types w : World H.

Lemma clear_not_set flag l :
  forallb (poll_clear flag) l = true -> existsb (poll_set flag) l = false.
Proof.
  induction l as [| ev l IH]; [reflexivity |]. simpl.
  intros [Hev Hl]%andb_true_iff. rewrite (IH Hl), orb_false_r.
  destruct ev as [| a x [e |] | |]; try reflexivity.
  simpl in *. destruct (a =? raw regLSR); [| reflexivity].
  destruct (Z.testbit x flag); [discriminate | reflexivity].
Qed.

(** The three ways [WriteByte] can end. *)
Lemma WriteByte_spec v c fuel w w' r :
  WriteByte v c fuel w = Some (w', r) ->
  exists clear,
    forallb (poll_clear 5) clear = true /\
    clock w' = clock w /\
    ticks w' = (ticks w + 1 + length clear)%nat /\
    ((exists x e,
        trace w' = trace w ++ clear ++
                     [EvRead (raw regLSR) x None; EvWrite (raw regTHR) c e] /\
        Z.testbit x 5 = true /\ r = lift_err e) \/
     (exists x b,
        trace w' = trace w ++ clear ++ [EvRead (raw regLSR) x (Some b)] /\
        r = Some (ErrBus b)) \/
     (trace w' = trace w ++ clear /\ r = Some ErrTimeout /\ clear <> [] /\
      deadline v w < clock w (ticks w + length clear)%nat)).
Proof.
  unfold WriteByte, deadline. cbn [time_Now].
  destruct (poll 5 _ fuel _) as [[w1 pr] |] eqn:Hpoll; [| discriminate].
  apply poll_spec in Hpoll as (clear & last & Hc & Ht & Htr & Hall & Hr); [| lia].
  cbn [clock ticks trace] in Hc, Ht, Htr, Hr.
  destruct pr as [| x |].
  - destruct Hr as (x & -> & Hbit).
    destruct (writeReg_spec regTHR c w1) as (h & e & _ & ->).
    intros [= <- <-]. exists clear. cbn [record clock ticks trace].
    repeat split; [exact Hall | exact Hc | lia |]. left. exists x, e.
    rewrite Htr, <- !app_assoc. cbn [app]. auto.
  - destruct Hr as (y & b & -> & ->). intros [= <- <-]. exists clear.
    repeat split; [exact Hall | exact Hc | lia |]. right. left. exists y, b.
    rewrite Htr. auto.
  - destruct Hr as (-> & Hne & Hlim). intros [= <- <-]. exists clear.
    repeat split; [exact Hall | exact Hc | lia |]. right. right.
    rewrite Htr, app_nil_r. repeat split; [exact Hne |].
    replace (ticks w + length clear)%nat with (S (ticks w) + length clear - 1)%nat by lia.
    exact Hlim.
Qed.

Lemma Read_copy_inv rlen n :
  forall i p w w' p' k err,
    Read_copy rlen n i p w = (w', (p', k, err)) ->
    exists oks tail,
      clock w' = clock w /\ ticks w' = ticks w /\
      trace w' = trace w ++ map rhr_read oks ++ tail /\
      match err with
      | None => tail = [] /\ k = rlen
      | Some e =>
          exists y b, tail = [EvRead (raw regRHR) y (Some b)] /\ e = ErrBus b /\
                      k = i + Z.of_nat (length oks)
      end.
Proof.
  induction n as [| n IH]; intros i p w w' p' k err Hrun.
  - injection Hrun as <- <- <- <-. exists [], []. cbn. rewrite app_nil_r. auto.
  - cbn [Read_copy] in Hrun. unfold ReadByte, readReg in Hrun. fold (raw regRHR) in Hrun.
    destruct (ReadRegU8 (raw regRHR) (hw w)) as [h [y [b |]]];
      cbn [lift_err fmap option_fmap option_map] in Hrun.
    + injection Hrun as <- <- <- <-. exists [], [EvRead (raw regRHR) (u8 y) (Some b)].
      cbn. repeat split. exists (u8 y), b. repeat split. lia.
    + apply IH in Hrun as (oks & tail & Hc & Ht & Htr & Herr).
      cbn [record clock ticks trace] in Hc, Ht, Htr.
      exists (y :: oks), tail. repeat split; [exact Hc | exact Ht | |].
      * rewrite Htr, <- app_assoc. reflexivity.
      * destruct err as [e |]; [| exact Herr].
        destruct Herr as (y' & b & -> & -> & ->). exists y', b.
        repeat split. cbn [length]. lia.
Qed.

(** The four ways [Read] can end. *)
Lemma Read_spec v p fuel w w' p' n err :
  Read v p fuel w = Some (w', (p', n, err)) ->
  exists clear,
    forallb (poll_clear 0) clear = true /\
    clock w' = clock w /\
    ticks w' = (ticks w + 1 + length clear)%nat /\
    ((trace w' = trace w ++ clear /\ n = -2 /\ err = Some ErrTimeout /\
      clear <> [] /\ deadline v w < clock w (ticks w + length clear)%nat) \/
     (exists x b,
        trace w' = trace w ++ clear ++ [EvRead (raw regLSR) x (Some b)] /\
        n = -1 /\ err = Some (ErrBus b)) \/
     (exists x y b,
        trace w' = trace w ++ clear ++
          [EvRead (raw regLSR) x None; EvRead (raw regRXLVL) y (Some b)] /\
        Z.testbit x 0 = true /\ n = -1 /\ err = Some (ErrBus b)) \/
     (exists x flen oks tail,
        trace w' = trace w ++ clear ++
          [EvRead (raw regLSR) x None; EvRead (raw regRXLVL) flen None] ++
          map rhr_read oks ++ tail /\
        Z.testbit x 0 = true /\
        match err with
        | None => tail = [] /\ n = Z.min (Z.of_nat (length p)) flen
        | Some e =>
            exists y b, tail = [EvRead (raw regRHR) y (Some b)] /\
                        e = ErrBus b /\ n = Z.of_nat (length oks)
        end)).
Proof.
  unfold Read, deadline. cbn [time_Now].
  destruct (poll 0 _ fuel _) as [[w1 pr] |] eqn:Hpoll; [| discriminate].
  apply poll_spec in Hpoll as (clear & last & Hc & Ht & Htr & Hall & Hr); [| lia].
  cbn [clock ticks trace] in Hc, Ht, Htr, Hr.
  destruct pr as [| x |].
  - destruct Hr as (x & -> & Hbit).
    unfold fifoDataLength, readReg. fold (raw regRXLVL).
    destruct (ReadRegU8 (raw regRXLVL) (hw w1)) as [h [y [b |]]];
      cbn [lift_err fmap option_fmap option_map].
    + intros [= <- <- <- <-]. exists clear. cbn [record clock ticks trace].
      repeat split; [exact Hall | exact Hc | lia |]. right. right. left.
      exists x, (u8 y), b. rewrite Htr, <- !app_assoc. cbn [app]. auto.
    + intros [= Hcopy].
      apply Read_copy_inv in Hcopy as (oks & tail & Hc' & Ht' & Htr' & Herr).
      cbn [record clock ticks trace] in Hc', Ht', Htr'.
      exists clear. repeat split; [exact Hall | congruence | lia |].
      right. right. right. exists x, (u8 y), oks, tail.
      split; [rewrite Htr', Htr, <- !app_assoc; reflexivity |].
      split; [exact Hbit |].
      destruct err as [e |].
      * destruct Herr as (y' & b & -> & -> & ->). exists y', b. repeat split; lia.
      * destruct Herr as [-> ->]. split; [reflexivity |].
        destruct (Z.ltb_spec (Z.of_nat (length p)) (u8 y)); lia.
  - destruct Hr as (y & b & -> & ->). intros [= <- <- <- <-]. exists clear.
    repeat split; [exact Hall | exact Hc | lia |]. right. left. exists y, b.
    rewrite Htr. auto.
  - destruct Hr as (-> & Hne & Hlim). intros [= <- <- <- <-]. exists clear.
    repeat split; [exact Hall | exact Hc | lia |]. left.
    rewrite Htr, app_nil_r. repeat split; [exact Hne |].
    replace (ticks w + length clear)%nat with (S (ticks w) + length clear - 1)%nat by lia.
    exact Hlim.
Qed.

End Outcomes.

(** ** Timeouts and error counts *)

Section Timeouts.
Context {H : Type} {bus : I2C H}.
Implicit Types w : World H.

Lemma forallb_middle (f : Event -> bool) l1 ev l2 :
  forallb f (l1 ++ ev :: l2) = true -> f ev = true.
Proof.
  rewrite forallb_app. cbn [forallb].
  intros [_ [Hev _]%andb_true_iff]%andb_true_iff. exact Hev.
Qed.

Lemma set_not_clear flag a x :
  Z.testbit x flag = true -> poll_clear flag (EvRead a x None) = false.
Proof. intros Hbit. unfold poll_clear. rewrite Hbit. apply andb_false_r. Qed.

Lemma timeout_not_bus (e : option buserr) : lift_err e <> Some ErrTimeout.
Proof. destruct e; discriminate. Qed.

(** What a terminated run of [WriteByte] or [Read] shows about timeouts,
    read off its transactions, and termination of the two loops. *)
Lemma timeout_runs v w :
  (forall c fuel w' r evs,
     WriteByte v c fuel w = Some (w', r) -> trace w' = trace w ++ evs ->
     (forallb (poll_clear 5) evs = true ->
      r = Some ErrTimeout /\ evs <> [] /\
      deadline v w < clock w (ticks w + length evs)%nat) /\
     (r = Some ErrTimeout ->
      forallb (poll_clear 5) evs = true /\
      deadline v w < clock w (ticks w + length evs)%nat) /\
     (existsb (poll_set 5) evs = true ->
      r <> Some ErrTimeout /\
      exists polls e, evs = polls ++ [EvWrite (raw regTHR) c e] /\ r = lift_err e)) /\
  (forall p fuel w' p' n err evs,
     Read v p fuel w = Some (w', (p', n, err)) -> trace w' = trace w ++ evs ->
     (forallb (poll_clear 0) evs = true ->
      n = -2 /\ err = Some ErrTimeout /\ evs <> [] /\
      deadline v w < clock w (ticks w + length evs)%nat) /\
     (err = Some ErrTimeout ->
      forallb (poll_clear 0) evs = true /\
      deadline v w < clock w (ticks w + length evs)%nat) /\
     (existsb (poll_set 0) evs = true -> err <> Some ErrTimeout)) /\
  (forall k fuel,
     deadline v w < clock w (ticks w + 1 + k)%nat -> (k < fuel)%nat ->
     (forall c, WriteByte v c fuel w <> None) /\
     (forall p, Read v p fuel w <> None)).
Proof.
  split; [| split].
  - intros c fuel w' r evs Hrun Htr.
    apply WriteByte_spec in Hrun
      as (clear & Hall & _ & _ & [(x & e & Ht & Hbit & ->) |
                                  [(x & b & Ht & ->) | (Ht & -> & Hne & Hlim)]]);
      rewrite Ht in Htr; apply app_inv_head in Htr; subst evs.
    + split; [| split].
      * intros Hf. apply forallb_middle in Hf.
        rewrite set_not_clear in Hf by exact Hbit. discriminate.
      * intros Hr. destruct (timeout_not_bus _ Hr).
      * intros _. split; [apply timeout_not_bus |].
        exists (clear ++ [EvRead (raw regLSR) x None]), e.
        rewrite <- app_assoc. split; reflexivity.
    + split; [| split].
      * intros Hf. apply forallb_middle in Hf. discriminate.
      * discriminate.
      * rewrite existsb_app, (clear_not_set _ _ Hall). discriminate.
    + split; [| split].
      * intros _. repeat split; assumption.
      * intros _. split; assumption.
      * rewrite (clear_not_set _ _ Hall). discriminate.
  - intros p fuel w' p' n err evs Hrun Htr.
    apply Read_spec in Hrun
      as (clear & Hall & _ & _ &
          [(Ht & -> & -> & Hne & Hlim) |
           [(x & b & Ht & -> & ->) |
            [(x & y & b & Ht & Hbit & -> & ->) |
             (x & flen & oks & tail & Ht & Hbit & Herr)]]]);
      rewrite Ht in Htr; apply app_inv_head in Htr; subst evs.
    + split; [| split].
      * intros _. repeat split; assumption.
      * intros _. split; assumption.
      * rewrite (clear_not_set _ _ Hall). discriminate.
    + split; [| split].
      * intros Hf. apply forallb_middle in Hf. discriminate.
      * discriminate.
      * discriminate.
    + split; [| split].
      * intros Hf. apply forallb_middle in Hf.
        rewrite set_not_clear in Hf by exact Hbit. discriminate.
      * discriminate.
      * discriminate.
    + split; [| split].
      * intros Hf. cbn [app] in Hf. apply forallb_middle in Hf.
        rewrite set_not_clear in Hf by exact Hbit. discriminate.
      * intros ->. destruct Herr as (y & b & _ & Hb & _). discriminate.
      * intros _ ->. destruct Herr as (y & b & _ & Hb & _). discriminate.
  - intros k fuel Hlate Hfuel.
    assert (Hpoll : forall flag,
               poll flag (deadline v w) fuel (fst (time_Now w)) <> None).
    { intros flag. apply poll_terminates with (k := k); [| exact Hfuel].
      cbn [time_Now fst clock ticks].
      replace (S (ticks w) + k)%nat with (ticks w + 1 + k)%nat by lia.
      exact Hlate. }
    split.
    + intros c. unfold WriteByte. specialize (Hpoll 5).
      unfold deadline in Hpoll. cbn [time_Now fst] in *.
      destruct (poll 5 _ fuel _) as [[w1 [| e |]] |]; congruence.
    + intros p. unfold Read. specialize (Hpoll 0).
      unfold deadline in Hpoll. cbn [time_Now fst] in *.
      destruct (poll 0 _ fuel _) as [[w1 [| e |]] |]; try congruence.
      destruct (fifoDataLength w1) as [w2 [flen [e |]]]; discriminate.
Qed.

Lemma Write_loop_app v fuel p1 :
  forall p2 k w w1 n,
    Write_loop v fuel p1 k w = Some (w1, (n, None)) ->
    n = k + Z.of_nat (length p1) /\
    Write_loop v fuel (p1 ++ p2) k w = Write_loop v fuel p2 n w1.
Proof.
  induction p1 as [| c p1 IH]; intros p2 k w w1 n Hrun.
  - injection Hrun as <- <-. cbn. split; [lia | reflexivity].
  - cbn [Write_loop app] in *.
    destruct (WriteByte v c fuel w) as [[w0 [e |]] |]; try discriminate.
    apply (IH p2) in Hrun as [-> Happ]. split; [cbn [length]; lia | exact Happ].
Qed.



(** *** The poll loop, from the replies of the bus *)

Lemma poll_step flag limit fuel w h1 x e :
  0 <= flag < 8 ->
  ReadRegU8 (raw regLSR) (hw w) = (h1, (x, e)) ->
  poll flag limit (S fuel) w =
    let tr := trace w ++ [EvRead (raw regLSR) (u8 x) e] in
    match e with
    | Some b => Some (mkWorld h1 (clock w) (ticks w) tr, PollFail (ErrBus b))
    | None =>
        if Z.testbit (u8 x) flag
        then Some (mkWorld h1 (clock w) (ticks w) tr, PollReady)
        else if limit <? clock w (ticks w)
             then Some (mkWorld h1 (clock w) (S (ticks w)) tr, PollTimeout)
             else poll flag limit fuel (mkWorld h1 (clock w) (S (ticks w)) tr)
    end.
Proof.
  intros Hflag Hrd. cbn [poll]. unfold peekRegBit, readReg. fold (raw regLSR).
  rewrite Hrd. destruct e as [b |]; cbn [lift_err fmap option_fmap option_map].
  - reflexivity.
  - rewrite (mask_test (u8 x) flag Hflag).
    destruct (Z.testbit (u8 x) flag); reflexivity.
Qed.

(** Polls that find the bit clear while the clock is within the limit
    are passed over. *)
Lemma poll_prefix flag limit xs :
  forall fuel w h1,
    0 <= flag < 8 ->
    bus_reads (raw regLSR) (length xs) (hw w) = (h1, map good xs) ->
    polls_clear flag xs = true ->
    readings_within (clock w) (ticks w) (length xs) limit = true ->
    poll flag limit (length xs + fuel) w =
      poll flag limit fuel
        (mkWorld h1 (clock w) (ticks w + length xs) (trace w ++ map lsr_read xs)).
Proof.
  induction xs as [| x xs IH]; intros fuel w h1 Hflag Hbus Hclear Hin.
  - cbn in Hbus. injection Hbus as <-. destruct w as [h c t tr]. cbn.
    rewrite Nat.add_0_r, app_nil_r. reflexivity.
  - cbn [length bus_reads map] in Hbus.
    destruct (ReadRegU8 (raw regLSR) (hw w)) as [h0 r] eqn:Hrd.
    destruct (bus_reads (raw regLSR) (length xs) h0) as [h' rs] eqn:Hrest.
    unfold good at 1 in Hbus. injection Hbus as <- -> ->.
    cbn [polls_clear forallb] in Hclear.
    apply andb_true_iff in Hclear as [Hx Hclear].
    apply negb_true_iff in Hx.
    unfold readings_within in Hin. cbn [length seq forallb] in Hin.
    apply andb_true_iff in Hin as [Hnow Hin].
    apply Z.leb_le in Hnow.
    cbn [length Nat.add]. rewrite (poll_step flag limit _ w h0 x None Hflag Hrd).
    cbv zeta. rewrite Hx.
    destruct (Z.ltb_spec limit (clock w (ticks w))) as [Hlt | _]; [lia |].
    rewrite (IH fuel _ h'); [| exact Hflag | exact Hrest | exact Hclear | exact Hin].
    cbn [clock ticks trace map].
    rewrite <- app_assoc. cbn [app].
    replace (S (ticks w) + length xs)%nat with (ticks w + S (length xs))%nat by lia.
    reflexivity.
Qed.

Lemma polls_clear_snoc flag xs x :
  polls_clear flag (xs ++ [x]) = true ->
  polls_clear flag xs = true /\ Z.testbit (u8 x) flag = false.
Proof.
  unfold polls_clear. rewrite forallb_app. cbn [forallb].
  intros [Hxs [Hx _]%andb_true_iff]%andb_true_iff.
  split; [exact Hxs | apply negb_true_iff; exact Hx].
Qed.

Lemma lsr_reads_snoc xs x : map lsr_read (xs ++ [x]) = map lsr_read xs ++ [lsr_read x].
Proof. apply map_app. Qed.

(** The loop times out at the first clock reading past the limit. *)
Lemma poll_times_out flag limit xs x fuel w h1 h2 :
  0 <= flag < 8 ->
  bus_reads (raw regLSR) (length xs) (hw w) = (h1, map good xs) ->
  ReadRegU8 (raw regLSR) h1 = (h2, (x, None)) ->
  polls_clear flag (xs ++ [x]) = true ->
  readings_within (clock w) (ticks w) (length xs) limit = true ->
  limit < clock w (ticks w + length xs)%nat ->
  (length xs < fuel)%nat ->
  poll flag limit fuel w =
    Some (mkWorld h2 (clock w) (S (ticks w + length xs))
            (trace w ++ map lsr_read (xs ++ [x])), PollTimeout).
Proof.
  intros Hflag Hbus Hrd Hclear Hin Hlate Hfuel.
  apply polls_clear_snoc in Hclear as [Hxs Hx].
  replace fuel with (length xs + S (fuel - length xs - 1))%nat by lia.
  rewrite (poll_prefix flag limit xs _ w h1 Hflag Hbus Hxs Hin).
  rewrite (poll_step flag limit _
             (mkWorld h1 (clock w) (ticks w + length xs) (trace w ++ map lsr_read xs)) h2 x None Hflag Hrd).
  cbv zeta. cbn [clock ticks trace]. rewrite Hx.
  apply Z.ltb_lt in Hlate. rewrite Hlate.
  rewrite lsr_reads_snoc, <- app_assoc. reflexivity.
Qed.

(** The loop ends at the first poll that finds the bit set. *)
Lemma poll_finds_ready flag limit xs x fuel w h1 h2 :
  0 <= flag < 8 ->
  bus_reads (raw regLSR) (length xs) (hw w) = (h1, map good xs) ->
  ReadRegU8 (raw regLSR) h1 = (h2, (x, None)) ->
  polls_clear flag xs = true ->
  Z.testbit (u8 x) flag = true ->
  readings_within (clock w) (ticks w) (length xs) limit = true ->
  (length xs < fuel)%nat ->
  poll flag limit fuel w =
    Some (mkWorld h2 (clock w) (ticks w + length xs)
            (trace w ++ map lsr_read (xs ++ [x])), PollReady).
Proof.
  intros Hflag Hbus Hrd Hxs Hx Hin Hfuel.
  replace fuel with (length xs + S (fuel - length xs - 1))%nat by lia.
  rewrite (poll_prefix flag limit xs _ w h1 Hflag Hbus Hxs Hin).
  rewrite (poll_step flag limit _
             (mkWorld h1 (clock w) (ticks w + length xs) (trace w ++ map lsr_read xs)) h2 x None Hflag Hrd).
  cbv zeta. cbn [clock ticks trace]. rewrite Hx.
  rewrite lsr_reads_snoc, <- app_assoc. reflexivity.
Qed.


Lemma Read_times_out v p xs x fuel w h1 h2 :
  bus_reads (raw regLSR) (length xs) (hw w) = (h1, map good xs) ->
  ReadRegU8 (raw regLSR) h1 = (h2, (x, None)) ->
  polls_clear 0 (xs ++ [x]) = true ->
  readings_within (clock w) (S (ticks w)) (length xs) (deadline v w) = true ->
  deadline v w < clock w (S (ticks w) + length xs)%nat ->
  (length xs < fuel)%nat ->
  Read v p fuel w =
    Some (mkWorld h2 (clock w) (S (S (ticks w) + length xs))
            (trace w ++ map lsr_read (xs ++ [x])),
          (p, -2, Some ErrTimeout)).
Proof.
  intros Hbus Hrd Hclear Hin Hlate Hfuel.
  unfold Read. cbn [time_Now]. fold (deadline v w).
  rewrite (poll_times_out 0 (deadline v w) xs x fuel _ h1 h2);
    cbn [hw clock ticks trace]; try assumption; try lia.
  reflexivity.
Qed.

(** C8 (amended). Take a call of [WriteByte] (readiness bit 5) or [Read]
    (bit 0), with deadline the clock reading at entry plus the timeout.
    If the first polls of the Line Status Register all succeed and find
    the bit clear, the clock readings taken after each of them but the
    last are within the deadline and the reading taken after the last is
    past it, the call returns [ErrTimeout] (with count -2 for [Read])
    right after that reading, having issued those polls and nothing
    else: not before the deadline has passed, and at the first reading
    that shows it passed.  If instead, while the readings are within the
    deadline, a poll finds the bit set, no timeout is returned and
    [WriteByte] writes the byte to the Transmit Holding Register and
    returns the status of that write.  In any terminated run a timeout
    is returned only after a reading past the deadline, and both loops
    terminate once some reading is past the deadline. *)
Theorem poll_loop_timeout v w :
  (forall xs x h1 h2 fuel,
     bus_reads (raw regLSR) (length xs) (hw w) = (h1, map good xs) ->
     ReadRegU8 (raw regLSR) h1 = (h2, (x, None)) ->
     readings_within (clock w) (S (ticks w)) (length xs) (deadline v w) = true ->
     deadline v w < clock w (S (ticks w) + length xs)%nat ->
     (length xs < fuel)%nat ->
     (polls_clear 5 (xs ++ [x]) = true ->
      forall c,
        WriteByte v c fuel w =
          Some (mkWorld h2 (clock w) (S (S (ticks w) + length xs))
                  (trace w ++ map lsr_read (xs ++ [x])),
                Some ErrTimeout)) /\
     (polls_clear 0 (xs ++ [x]) = true ->
      forall p,
        Read v p fuel w =
          Some (mkWorld h2 (clock w) (S (S (ticks w) + length xs))
                  (trace w ++ map lsr_read (xs ++ [x])),
                (p, -2, Some ErrTimeout)))) /\
  (forall xs x h1 h2 fuel,
     bus_reads (raw regLSR) (length xs) (hw w) = (h1, map good xs) ->
     ReadRegU8 (raw regLSR) h1 = (h2, (x, None)) ->
     readings_within (clock w) (S (ticks w)) (length xs) (deadline v w) = true ->
     (length xs < fuel)%nat ->
     (polls_clear 5 xs = true -> Z.testbit (u8 x) 5 = true ->
      forall c h3 e,
        WriteRegU8 (raw regTHR) c h2 = (h3, e) ->
        WriteByte v c fuel w =
          Some (mkWorld h3 (clock w) (S (ticks w) + length xs)
                  (trace w ++ map lsr_read (xs ++ [x]) ++ [EvWrite (raw regTHR) c e]),
                lift_err e) /\
        lift_err e <> Some ErrTimeout) /\
     (polls_clear 0 xs = true -> Z.testbit (u8 x) 0 = true ->
      forall p, exists w' p' n err,
        Read v p fuel w = Some (w', (p', n, err)) /\ err <> Some ErrTimeout)) /\
  (forall c fuel w' r evs,
     WriteByte v c fuel w = Some (w', r) -> trace w' = trace w ++ evs ->
     (r = Some ErrTimeout ->
      forallb (poll_clear 5) evs = true /\ evs <> [] /\
      deadline v w < clock w (ticks w + length evs)%nat) /\
     (existsb (poll_set 5) evs = true ->
      r <> Some ErrTimeout /\
      exists polls e, evs = polls ++ [EvWrite (raw regTHR) c e] /\ r = lift_err e)) /\
  (forall p fuel w' p' n err evs,
     Read v p fuel w = Some (w', (p', n, err)) -> trace w' = trace w ++ evs ->
     (err = Some ErrTimeout ->
      n = -2 /\ forallb (poll_clear 0) evs = true /\ evs <> [] /\
      deadline v w < clock w (ticks w + length evs)%nat) /\
     (existsb (poll_set 0) evs = true -> err <> Some ErrTimeout)) /\
  (forall k fuel,
     deadline v w < clock w (ticks w + 1 + k)%nat -> (k < fuel)%nat ->
     (forall c, WriteByte v c fuel w <> None) /\
     (forall p, Read v p fuel w <> None)).
Proof.
  destruct (timeout_runs v w) as (HW & HR & Hterm).
  split; [| split; [| split; [| split]]].
  - intros xs x h1 h2 fuel Hbus Hrd Hin Hlate Hfuel. split.
    + intros Hclear c. unfold WriteByte. cbn [time_Now]. fold (deadline v w).
      rewrite (poll_times_out 5 (deadline v w) xs x fuel _ h1 h2);
        cbn [hw clock ticks trace]; try assumption; try lia.
      reflexivity.
    + intros Hclear p. apply (Read_times_out v p xs x fuel w h1 h2); assumption.
  - intros xs x h1 h2 fuel Hbus Hrd Hin Hfuel. split.
    + intros Hxs Hx c h3 e Hwr. split; [| apply timeout_not_bus].
      unfold WriteByte. cbn [time_Now]. fold (deadline v w).
      rewrite (poll_finds_ready 5 (deadline v w) xs x fuel _ h1 h2);
        cbn [hw clock ticks trace]; try assumption; try lia.
      unfold writeReg. fold (raw regTHR). cbn [hw]. rewrite Hwr.
      unfold record. cbn [clock ticks trace]. rewrite <- app_assoc. reflexivity.
    + intros Hxs Hx p.
      assert (Hpoll : poll 0 (deadline v w) fuel (fst (time_Now w)) =
                        Some (mkWorld h2 (clock w) (S (ticks w) + length xs)
                                (trace w ++ map lsr_read (xs ++ [x])), PollReady)).
      { cbn [time_Now fst].
        rewrite (poll_finds_ready 0 (deadline v w) xs x fuel _ h1 h2);
          cbn [hw clock ticks trace]; try assumption; try lia.
        reflexivity. }
      unfold Read. cbn [time_Now fst] in *. fold (deadline v w). rewrite Hpoll.
      destruct (fifoDataLength _) as [w2 [flen [e |]]] eqn:Hlen.
      * assert (He : exists b, e = ErrBus b).
        { revert Hlen. unfold fifoDataLength, readReg. cbn [hw].
          destruct (ReadRegU8 (u8 (Z.shiftl regRXLVL 3)) h2) as [h [y [b |]]];
            cbn [lift_err fmap option_fmap option_map];
            intros Heq; inversion Heq; eauto. }
        destruct He as [b ->]. do 4 eexists. split; [reflexivity | discriminate].
      * destruct (Read_copy _ _ 0 p w2) as [w3 [[p' n] err]] eqn:Hcopy.
        do 4 eexists. split; [reflexivity |].
        apply Read_copy_inv in Hcopy as (oks & tail & _ & _ & _ & Herr).
        destruct err as [e |]; [| discriminate].
        destruct Herr as (y & b & _ & -> & _). discriminate.
  - intros c fuel w' r evs Hrun Htr.
    destruct (HW c fuel w' r evs Hrun Htr) as (Hclear & Hto & Hset).
    split; [| exact Hset].
    intros Hr. destruct (Hto Hr) as [Hall Hlim].
    destruct (Hclear Hall) as (_ & Hne & _). auto.
  - intros p fuel w' p' n err evs Hrun Htr.
    destruct (HR p fuel w' p' n err evs Hrun Htr) as (Hclear & Hto & Hset).
    split; [| exact Hset].
    intros Hr. destruct (Hto Hr) as [Hall Hlim].
    destruct (Hclear Hall) as (Hn & _ & Hne & _). auto.
  - exact Hterm.
Qed.


End Timeouts.

(** ** Concrete runs on the scripted bus *)

Lemma ClearFifo_control_byte_witness :
  exists h2,
    ClearFifo BothFifo (boot [ok 0xC1]) =
      (mkWorld h2 ms_clock 0
         [EvRead (raw regIIR) 0xC1 None; EvWrite (raw regFCR) 7 None], None).
Proof.
  destruct (ClearFifo_control_byte BothFifo (boot [ok 0xC1]))
    as (h1 & v & e1 & Hrd & Hrest); [right; right; reflexivity |].
  injection Hrd as <- <- <-.
  destruct Hrest as (fcr & h2 & e2 & Hwr & Hrun & _ & _ & _ & _ & Hen).
  destruct (Hen eq_refl) as (_ & _ & Hboth). rewrite (Hboth eq_refl) in *.
  injection Hwr as <- <-. exists []. exact Hrun.
Defined.

Lemma setBaudRate_zero_baud_panics_witness :
  snd (Open conf_baud0 (boot [ok 0; ok 0; ok 0xde])) = Panic.
Proof.
  destruct (setBaudRate_zero_baud_panics dev0 (boot [ok 0; ok 0; ok 0xde]))
    as (_ & _ & Hopen).
  edestruct (Hopen conf_baud0) as [Ho _];
    [reflexivity | reflexivity | reflexivity | reflexivity |].
  rewrite Ho. reflexivity.
Defined.

Lemma Open_failure_closes_once_witness :
  snd (Open conf_size9 (boot [ok 0; ok 0; ok 0xde]))
    = Done (None, Some ErrUnsupportedDataBits) /\
  count_close (trace (fst (Open conf_size9 (boot [ok 0; ok 0; ok 0xde])))) = 1%nat.
Proof.
  destruct (Open_failure_closes_once conf_size9 (boot [ok 0; ok 0; ok 0xde])
              [ok 0; ok 0xde]) as [Hsteps _]; [reflexivity |].
  edestruct (Hsteps 3%nat) as (hc & ec & _ & Hopen & _ & Hcount);
    [reflexivity | reflexivity | reflexivity |].
  rewrite Hopen. split; [reflexivity | exact Hcount].
Defined.

Lemma Read_min_count_witness :
  option_map snd (Read dev0 [9; 9; 9; 9] 5 (boot [ok 0; ok 1; ok 2; ok 65; ok 66]))
    = Some ([65; 66; 9; 9], 2, None).
Proof.
  destruct (Read_min_count dev0 [9; 9; 9; 9] 5
              (boot [ok 0; ok 1; ok 2; ok 65; ok 66])
              (mkWorld [ok 2; ok 65; ok 66] ms_clock 2
                 [EvRead (raw regLSR) 0 None; EvRead (raw regLSR) 1 None])
              [ok 65; ok 66] 2 [] [65; 66])
    as [_ Hr]; [reflexivity | reflexivity | reflexivity |].
  rewrite Hr. reflexivity.
Defined.

Lemma Read_partial_count_witness :
  option_map snd (Read dev0 [9; 9; 9; 9] 5 (boot [ok 0; ok 1; ok 3; ok 65; ko 4]))
    = Some ([65; 0; 9; 9], 1, Some (ErrBus (BusFault 4))).
Proof.
  rewrite (Read_partial_count dev0 [9; 9; 9; 9] 5
             (boot [ok 0; ok 1; ok 3; ok 65; ko 4])
             (mkWorld [ok 3; ok 65; ko 4] ms_clock 2
                [EvRead (raw regLSR) 0 None; EvRead (raw regLSR) 1 None])
             [ok 65; ko 4] 3 [] [65] 0 (BusFault 4));
    reflexivity.
Defined.

Lemma poll_loop_timeout_witness :
  WriteByte dev_short 65 3 (boot []) =
    Some (mkWorld [] ms_clock 3
            [EvRead (raw regLSR) 0 None; EvRead (raw regLSR) 0 None],
          Some ErrTimeout) /\
  Read dev_short [7] 3 (boot []) =
    Some (mkWorld [] ms_clock 3
            [EvRead (raw regLSR) 0 None; EvRead (raw regLSR) 0 None],
          ([7], -2, Some ErrTimeout)) /\
  WriteByte dev_short 65 3 (boot [ok 0; ok 0x20; ko 4]) =
    Some (mkWorld [] ms_clock 2
            [EvRead (raw regLSR) 0 None; EvRead (raw regLSR) 0x20 None;
             EvWrite (raw regTHR) 65 (Some (BusFault 4))],
          Some (ErrBus (BusFault 4))).
Proof.
  destruct (poll_loop_timeout dev_short (boot [])) as (Hto & _).
  destruct (Hto [0] 0 [] [] 3%nat) as [HW HR];
    [reflexivity | reflexivity | reflexivity | reflexivity | cbn; lia |].
  destruct (poll_loop_timeout dev_short (boot [ok 0; ok 0x20; ko 4])) as (_ & Hrdy & _).
  destruct (Hrdy [0] 0x20 [ok 0x20; ko 4] [ko 4] 3%nat) as [HWr _];
    [reflexivity | reflexivity | reflexivity | cbn; lia |].
  split; [exact (HW eq_refl 65) |]. split; [exact (HR eq_refl [7]) |].
  exact (proj1 (HWr eq_refl eq_refl 65 [] (Some (BusFault 4)) eq_refl)).
Defined.

(** The claim as stated fails when a poll meets a bus error: the bit is
    never observed set, and the call returns the bus error, not
    [ErrTimeout]. *)
Lemma poll_bus_error_is_not_timeout :
  exists w1 w2,
    WriteByte dev0 65 3 (boot [ko 7]) = Some (w1, Some (ErrBus (BusFault 7))) /\
    existsb (poll_set 5) (trace w1) = false /\
    Read dev0 [0] 3 (boot [ko 7]) = Some (w2, ([0], -1, Some (ErrBus (BusFault 7)))) /\
    existsb (poll_set 0) (trace w2) = false /\
    ErrBus (BusFault 7) <> ErrTimeout.
Proof.
  do 2 eexists. repeat split; try reflexivity. discriminate.
Qed.


(** * Further properties of the driver *)

(** ** Bit manipulation on registers *)

Lemma mask_value flag :
  0 <= flag -> u8 (Z.shiftl 1 flag) = if flag <? 8 then 2 ^ flag else 0.
Proof.
  intros Hf. unfold u8. rewrite Z.shiftl_1_l.
  destruct (Z.ltb_spec flag 8) as [Hlt | Hge].
  - apply Z.mod_small. split; [apply Z.pow_nonneg; lia |].
    change 256 with (2 ^ 8). apply Z.pow_lt_mono_r; lia.
  - replace flag with (8 + (flag - 8)) by lia.
    rewrite Z.pow_add_r by lia. change (2 ^ 8) with 256.
    rewrite Z.mul_comm. apply Z.mod_mul. lia.
Qed.

Lemma u8_range x : 0 <= u8 x < 256.
Proof. unfold u8. apply Z.mod_pos_bound. lia. Qed.

Lemma u8_high_bits x k : 8 <= k -> Z.testbit (u8 x) k = false.
Proof.
  intros Hk. unfold u8. change 256 with (2 ^ 8).
  apply Z.mod_pow2_bits_high. lia.
Qed.

Lemma byte_of_bits x :
  0 <= x -> (forall k, 8 <= k -> Z.testbit x k = false) -> 0 <= x < 256.
Proof.
  intros Hx Hbits. split; [exact Hx |].
  destruct (Z.lt_ge_cases x 256) as [Hlt | Hge]; [exact Hlt |].
  assert (Hlog : 8 <= Z.log2 x).
  { change 8 with (Z.log2 256). apply Z.log2_le_mono. exact Hge. }
  assert (Hbit : Z.testbit x (Z.log2 x) = true) by (apply Z.bit_log2; lia).
  rewrite (Hbits _ Hlog) in Hbit. discriminate.
Qed.

Section Bits.
Context {H : Type} {bus : I2C H}.
Implicit Types w : World H.

(** X1. [updateRegBit] is a read followed by a write of the same register;
    the byte written differs from the byte read in bit [flag] only, which
    takes the requested value.  For [flag >= 8] the mask [1 << flag]
    is 0 as a byte and the register is written back unchanged. *)
Theorem updateRegBit_changes_one_bit reg flag value w h1 old :
  0 <= flag ->
  ReadRegU8 (raw reg) (hw w) = (h1, (old, None)) ->
  exists new h2 e,
    WriteRegU8 (raw reg) new h1 = (h2, e) /\
    updateRegBit reg flag value w =
      (mkWorld h2 (clock w) (ticks w)
         (trace w ++ [EvRead (raw reg) (u8 old) None; EvWrite (raw reg) new e]),
       lift_err e) /\
    0 <= new < 256 /\
    (forall k, 0 <= k ->
       Z.testbit new k =
         if (k =? flag) && (flag <? 8) then value else Z.testbit (u8 old) k).
Proof.
  intros Hf Hrd. unfold updateRegBit, readReg, writeReg. fold (raw reg).
  rewrite Hrd. cbn [lift_err fmap option_fmap option_map hw record].
  set (new := if value then Z.lor (u8 old) (u8 (Z.shiftl 1 flag))
              else Z.ldiff (u8 old) (u8 (Z.shiftl 1 flag))).
  destruct (WriteRegU8 (raw reg) new h1) as [h2 e] eqn:Hwr.
  exists new, h2, e. split; [exact Hwr |]. split.
  { unfold record. cbn [hw clock ticks trace]. rewrite <- app_assoc. reflexivity. }
  assert (Hbits : forall k, 0 <= k ->
            Z.testbit new k =
              if (k =? flag) && (flag <? 8) then value else Z.testbit (u8 old) k).
  { intros k Hk. subst new. rewrite (mask_value flag Hf).
    destruct value.
    - rewrite Z.lor_spec. destruct (Z.ltb_spec flag 8).
      + rewrite Z.pow2_bits_eqb by lia. rewrite (Z.eqb_sym flag k).
        destruct (k =? flag); cbn; [apply orb_true_r | apply orb_false_r].
      + rewrite Z.bits_0, andb_false_r. apply orb_false_r.
    - rewrite Z.ldiff_spec. destruct (Z.ltb_spec flag 8).
      + rewrite Z.pow2_bits_eqb by lia. rewrite (Z.eqb_sym flag k).
        destruct (k =? flag); cbn; [apply andb_false_r | apply andb_true_r].
      + rewrite Z.bits_0, andb_false_r. apply andb_true_r. }
  split; [| exact Hbits].
  apply byte_of_bits.
  - pose proof (u8_range old). pose proof (u8_range (Z.shiftl 1 flag)).
    subst new. destruct value; [apply Z.lor_nonneg | apply Z.ldiff_nonneg]; lia.
  - intros k Hk. rewrite Hbits by lia. rewrite u8_high_bits by exact Hk.
    destruct (Z.eqb_spec k flag) as [-> | _]; [| reflexivity].
    destruct (Z.ltb_spec flag 8); [lia | reflexivity].
Qed.

(** X2. [peekRegBit] issues a single register read and no write; it
    answers with bit [flag] of the byte read when [flag < 8], with
    [false] for any larger [flag], and with [false] and the bus error when
    the read fails. *)
Theorem peekRegBit_tests_bit reg flag w h1 v e :
  0 <= flag ->
  ReadRegU8 (raw reg) (hw w) = (h1, (v, e)) ->
  peekRegBit reg flag w =
    (mkWorld h1 (clock w) (ticks w) (trace w ++ [EvRead (raw reg) (u8 v) e]),
     (match e with
      | None => (flag <? 8) && Z.testbit (u8 v) flag
      | Some _ => false
      end, lift_err e)).
Proof.
  intros Hf Hrd. unfold peekRegBit, readReg. fold (raw reg). rewrite Hrd.
  destruct e as [b |]; cbn [lift_err fmap option_fmap option_map]; [reflexivity |].
  unfold record. do 2 f_equal. f_equal.
  rewrite (mask_value flag Hf). destruct (Z.ltb_spec flag 8) as [Hlt | Hge].
  - rewrite land_pow2 by lia. destruct (Z.testbit (u8 v) flag); [| reflexivity].
    assert (0 < 2 ^ flag) by (apply Z.pow_pos_nonneg; lia).
    destruct (Z.eqb_spec (2 ^ flag) 0); [lia | reflexivity].
  - rewrite Z.land_0_r. reflexivity.
Qed.

End Bits.

Lemma updateRegBit_changes_one_bit_witness :
  exists new h2 e,
    WriteRegU8 (raw regLCR) new [] = (h2, e) /\
    0 <= new < 256 /\
    Z.testbit new 7 = true /\ Z.testbit new 0 = true /\ Z.testbit new 1 = false.
Proof.
  destruct (updateRegBit_changes_one_bit regLCR 7 true (boot [ok 0x01]) [] 0x01)
    as (new & h2 & e & Hwr & _ & Hrange & Hbits); [lia | reflexivity |].
  exists new, h2, e. split; [exact Hwr |]. split; [exact Hrange |].
  rewrite !Hbits by lia. repeat split; reflexivity.
Defined.

Lemma peekRegBit_tests_bit_witness :
  snd (peekRegBit regLSR 5 (boot [ok 0x20])) = (true, None) /\
  snd (peekRegBit regLSR 9 (boot [ok 0xFF])) = (false, None).
Proof.
  split.
  - rewrite (peekRegBit_tests_bit regLSR 5 (boot [ok 0x20]) [] 0x20 None);
      [reflexivity | lia | reflexivity].
  - rewrite (peekRegBit_tests_bit regLSR 9 (boot [ok 0xFF]) [] 0xFF None);
      [reflexivity | lia | reflexivity].
Defined.

(** ** More on the baud-rate divisor *)

Lemma divisor_bytes d : d mod 256 + 256 * ((d / 256) mod 256) = d mod 65536.
Proof. change 65536 with (256 * 256). rewrite Z.rem_mul_r by lia. reflexivity. Qed.

Section BaudMore.
Context {H : Type} {bus : I2C H}.
Implicit Types w : World H.

(** X3. For a [uint32] baud rate, the divisor computation panics exactly
    when [baud] is a multiple of [2^28] (zero included), since [baud * 16]
    is then 0 modulo [2^32]; and [setBaudRate] panics exactly when, in
    addition, the read of the Modem Control Register has succeeded. *)
Theorem setBaudRate_panics_iff v baud w :
  0 <= baud < 2 ^ 32 ->
  (forall xtal prescaler,
     baud_divisor xtal prescaler baud = None <-> baud mod 2 ^ 28 = 0) /\
  (snd (setBaudRate v baud w) = Panic <->
   (exists h1 mcr, ReadRegU8 (raw regMCR) (hw w) = (h1, (mcr, None))) /\
   baud mod 2 ^ 28 = 0).
Proof.
  intros Hb.
  assert (Hdiv : forall xtal prescaler,
             baud_divisor xtal prescaler baud = None <-> baud mod 2 ^ 28 = 0).
  { intros xtal prescaler. unfold baud_divisor, u32.
    assert (Hm : (baud * 16) mod 2 ^ 32 = 16 * (baud mod 2 ^ 28)).
    { change (2 ^ 32) with (16 * 2 ^ 28). rewrite (Z.mul_comm baud 16).
      apply Z.mul_mod_distr_l; lia. }
    rewrite Hm. destruct (Z.eqb_spec (16 * (baud mod 2 ^ 28)) 0) as [Hz | Hnz].
    - split; [lia | reflexivity].
    - split; [discriminate | lia]. }
  split; [exact Hdiv |].
  unfold setBaudRate, peekRegBit, readReg. fold (raw regMCR).
  destruct (ReadRegU8 (raw regMCR) (hw w)) as [h1 [mcr [b |]]];
    cbn [lift_err fmap option_fmap option_map].
  - cbn [snd]. split; [discriminate |]. intros [(h & m & [=]) _].
  - destruct (baud_divisor _ _ baud) as [d |] eqn:Hd.
    + assert (Hnz : baud mod 2 ^ 28 <> 0).
      { intros Hz. rewrite (proj2 (Hdiv _ _) Hz) in Hd. discriminate. }
      split; [| intros [_ Hz]; contradiction].
      unfold updateRegBit, readReg, writeReg.
      repeat (bus_step; try discriminate).
    + cbn [snd]. split; [| reflexivity]. intros _. split; [eauto |].
      exact (proj1 (Hdiv _ _) Hd).
Qed.

(** X4. The two divisor-latch bytes written by a successful [setBaudRate]
    carry the divisor modulo [2^16] only: the low register receives
    [d mod 256], the high register [(d / 256) mod 256], and a divisor of
    65536 or more is truncated without an error.  The last transaction
    of a successful run is a write to the Line Control Register with bit
    7 clear. *)
Theorem setBaudRate_latch_16_bits v baud w h1 mcr d w' :
  ReadRegU8 (raw regMCR) (hw w) = (h1, (mcr, None)) ->
  baud_divisor (xtalFreq v) (if Z.testbit (u8 mcr) 7 then 4 else 1) baud = Some d ->
  setBaudRate v baud w = (w', Done None) ->
  exists l1 l2 lo hi,
    trace w' = trace w ++
      [EvRead (raw regMCR) (u8 mcr) None;
       EvRead (raw regLCR) l1 None; EvWrite (raw regLCR) (Z.lor l1 0x80) None;
       EvWrite (raw regDLL) lo None; EvWrite (raw regDLH) hi None;
       EvRead (raw regLCR) l2 None; EvWrite (raw regLCR) (Z.ldiff l2 0x80) None] /\
    0 <= lo < 256 /\ 0 <= hi < 256 /\
    lo + 256 * hi = d mod 65536 /\
    Z.testbit (Z.ldiff l2 0x80) 7 = false.
Proof.
  intros Hmcr Hd Hrun.
  destruct (setBaudRate_runs v baud w h1 mcr d w' None Hmcr Hd Hrun)
    as (evs & Hall & [(l1 & l2 & _ & ->) | (b & [=] & _)]).
  exists l1, l2, (d mod 256), ((d / 256) mod 256).
  split; [exact Hall |].
  split; [apply Z.mod_pos_bound; lia |].
  split; [apply Z.mod_pos_bound; lia |].
  split; [apply divisor_bytes |].
  rewrite Z.ldiff_spec. change (Z.testbit 0x80 7) with true. apply andb_false_r.
Qed.

(** X5. [setBaudRate] has no rollback: in a run that returns an error,
    every write to the Line Control Register that succeeded carries bit 7
    set.  So once the divisor latch has been enabled, a later failure
    returns with the latch still enabled. *)
Theorem setBaudRate_no_rollback v baud w w' e evs :
  setBaudRate v baud w = (w', Done (Some e)) ->
  trace w' = trace w ++ evs ->
  forall x, In (EvWrite (raw regLCR) x None) evs -> Z.testbit x 7 = true.
Proof.
  intros Hrun Htr x Hin.
  destruct (ReadRegU8 (raw regMCR) (hw w)) as [h1 [mcr [b |]]] eqn:Hmcr.
  - revert Hrun Htr. unfold setBaudRate, peekRegBit, readReg. fold (raw regMCR).
    rewrite Hmcr. cbn [lift_err fmap option_fmap option_map].
    intros [= <- _]. trace_norm. intros Htr. apply app_inv_head in Htr.
    subst evs. destruct Hin as [[=] | []].
  - destruct (baud_divisor (xtalFreq v) (if Z.testbit (u8 mcr) 7 then 4 else 1) baud)
      as [d |] eqn:Hd.
    + destruct (setBaudRate_runs v baud w h1 mcr d w' (Some e) Hmcr Hd Hrun)
        as (evs' & Htr' & Hcases).
      rewrite Htr' in Htr. apply app_inv_head in Htr. subst evs.
      assert (Hset : forall l, Z.testbit (Z.lor l 0x80) 7 = true).
      { intros l. rewrite Z.lor_spec. apply orb_true_r. }
      destruct Hcases as [(l1 & l2 & [=] & _) | (b & _ & Hc)].
      destruct Hc as [(l1 & ->) | [(l1 & ->) | [(l1 & ->) | [(l1 & ->) |
                     [(l1 & l2 & ->) | (l1 & l2 & ->)]]]]];
        cbn [In] in Hin;
        repeat (destruct Hin as [Hin | Hin]; [try discriminate |]);
        try contradiction;
        injection Hin as <-; apply Hset.
    + revert Hrun. unfold setBaudRate, peekRegBit, readReg. fold (raw regMCR).
      rewrite Hmcr. cbn [lift_err fmap option_fmap option_map].
      rewrite (mask_test (u8 mcr) 7) by lia. rewrite Hd. discriminate.
Qed.

End BaudMore.

Lemma setBaudRate_panics_iff_witness :
  snd (setBaudRate dev0 268435456 (boot [])) = Panic.
Proof.
  destruct (setBaudRate_panics_iff dev0 268435456 (boot [])) as [_ Hp]; [lia |].
  apply Hp. split; [exists [], 0; reflexivity | reflexivity].
Defined.

Lemma setBaudRate_latch_16_bits_witness :
  exists l1 l2 lo hi,
    trace (fst (setBaudRate dev0 1 (boot []))) =
      [EvRead (raw regMCR) 0 None;
       EvRead (raw regLCR) l1 None; EvWrite (raw regLCR) (Z.lor l1 0x80) None;
       EvWrite (raw regDLL) lo None; EvWrite (raw regDLH) hi None;
       EvRead (raw regLCR) l2 None; EvWrite (raw regLCR) (Z.ldiff l2 0x80) None] /\
    lo + 256 * hi = 921600 mod 65536.
Proof.
  destruct (setBaudRate_latch_16_bits dev0 1 (boot []) [] 0 921600
              (fst (setBaudRate dev0 1 (boot []))))
    as (l1 & l2 & lo & hi & Htr & _ & _ & Hsum & _);
    [reflexivity | reflexivity | reflexivity |].
  exists l1, l2, lo, hi. split; [exact Htr | exact Hsum].
Defined.

Lemma setBaudRate_no_rollback_witness :
  snd (setBaudRate dev0 9600 (boot [ok 0; ok 0; ok 0; ko 5]))
    = Done (Some (ErrBus (BusFault 5))) /\
  Z.testbit 0x80 7 = true.
Proof.
  split; [reflexivity |].
  apply (setBaudRate_no_rollback dev0 9600 (boot [ok 0; ok 0; ok 0; ko 5])
           (fst (setBaudRate dev0 9600 (boot [ok 0; ok 0; ok 0; ko 5])))
           (ErrBus (BusFault 5))
           [EvRead (raw regMCR) 0 None; EvRead (raw regLCR) 0 None;
            EvWrite (raw regLCR) 0x80 None;
            EvWrite (raw regDLL) 96 (Some (BusFault 5))]);
    [reflexivity | reflexivity |].
  right. right. left. reflexivity.
Defined.

(** ** Self-test *)

Section SelfTest.
Context {H : Type} {bus : I2C H}.
Implicit Types w : World H.

(** X6. [testChip] passes exactly when the write of the test value to the
    scratchpad succeeds, the read-back succeeds and the byte read is
    [0xde]; when the write fails the scratchpad is not read. *)
Theorem testChip_passes_iff w :
  (snd (testChip w) = None <->
   exists h1 h2 rv,
     WriteRegU8 (raw regSPR) testValue (hw w) = (h1, None) /\
     ReadRegU8 (raw regSPR) h1 = (h2, (rv, None)) /\
     u8 rv = testValue) /\
  (forall h1 b,
     WriteRegU8 (raw regSPR) testValue (hw w) = (h1, Some b) ->
     testChip w =
       (mkWorld h1 (clock w) (ticks w)
          (trace w ++ [EvWrite (raw regSPR) testValue (Some b)]),
        Some (ErrBus b))).
Proof.
  unfold testChip, readReg, writeReg. fold (raw regSPR). split.
  - destruct (WriteRegU8 (raw regSPR) testValue (hw w)) as [h1 [b |]] eqn:Hwr;
      cbn [lift_err fmap option_fmap option_map hw record].
    + split; [discriminate | intros (h & h2 & rv & [=] & _)].
    + destruct (ReadRegU8 (raw regSPR) h1) as [h2 [rv [b |]]] eqn:Hrd;
        cbn [lift_err fmap option_fmap option_map].
      * split; [discriminate | intros (h & h' & rv' & [= <-] & Hrd' & _)].
        rewrite Hrd in Hrd'. discriminate.
      * destruct (Z.eqb_spec (u8 rv) testValue) as [Heq | Hne]; cbn [negb snd].
        -- split; [intros _; eauto 6 | reflexivity].
        -- split; [discriminate |].
           intros (h & h' & rv' & [= <-] & Hrd' & Heq).
           rewrite Hrd in Hrd'. injection Hrd' as <- <-. contradiction.
  - intros h1 b Hwr. rewrite Hwr. reflexivity.
Qed.

End SelfTest.

(** ** Write path *)

Section WritePath.
Context {H : Type} {bus : I2C H}.
Implicit Types w : World H.

Lemma clear_are_reads flag l :
  forallb (poll_clear flag) l = true -> forallb is_read l = true.
Proof.
  induction l as [| ev l IH]; [reflexivity |]. cbn [forallb].
  intros [Hev Hl]%andb_true_iff. rewrite (IH Hl), andb_true_r.
  destruct ev; try discriminate. reflexivity.
Qed.

Lemma reads_no_write l : forallb is_read l = true -> List.filter is_write l = [].
Proof.
  induction l as [| ev l IH]; [reflexivity |]. cbn [forallb List.filter].
  intros [Hev Hl]%andb_true_iff. destruct ev; try discriminate.
  cbn [is_write]. apply IH. exact Hl.
Qed.


Lemma WriteByte_ok_writes v c fuel w w' :
  WriteByte v c fuel w = Some (w', None) ->
  exists evs, trace w' = trace w ++ evs /\ List.filter is_write evs = [thr_write c].
Proof.
  intros Hrun.
  destruct (WriteByte_spec _ _ _ _ _ _ Hrun) as (clear & Hall & _ & _ & Hcases).
  pose proof (reads_no_write _ (clear_are_reads _ _ Hall)) as Hnw.
  destruct Hcases as [(x & e & Ht & Hbit & He) | [(x & b & _ & [=]) | (_ & [=] & _)]].
  destruct e; [discriminate |].
  eexists. split; [exact Ht |]. rewrite List.filter_app, Hnw. reflexivity.
Qed.

Lemma Write_loop_writes v fuel p :
  forall k w w' n,
    Write_loop v fuel p k w = Some (w', (n, None)) ->
    exists evs, trace w' = trace w ++ evs /\
                List.filter is_write evs = map thr_write p.
Proof.
  induction p as [| c p IH]; intros k w w' n Hrun.
  - injection Hrun as <- _. exists []. rewrite app_nil_r. split; reflexivity.
  - cbn [Write_loop] in Hrun.
    destruct (WriteByte v c fuel w) as [[w1 [e |]] |] eqn:Hwb; try discriminate.
    apply WriteByte_ok_writes in Hwb as (evs1 & Ht1 & Hf1).
    apply IH in Hrun as (evs2 & Ht2 & Hf2).
    exists (evs1 ++ evs2). split.
    + rewrite Ht2, Ht1, app_assoc. reflexivity.
    + rewrite List.filter_app, Hf1, Hf2. reflexivity.
Qed.

(** X8. A [Write] that returns no error returns the length of the buffer,
    and the writes it has issued are exactly the writes of the buffer's
    bytes to the Transmit Holding Register, in order, each successful; in
    particular an empty buffer gives 0 and no write. *)
Theorem Write_success v p fuel w w' n evs :
  Write v p fuel w = Some (w', (n, None)) ->
  trace w' = trace w ++ evs ->
  n = Z.of_nat (length p) /\
  List.filter is_write evs = map thr_write p.
Proof.
  intros Hrun Htr. unfold Write in Hrun. split.
  - apply (Write_loop_app v fuel p []) in Hrun as [-> _]. lia.
  - apply Write_loop_writes in Hrun as (evs' & Ht & Hf).
    rewrite Ht in Htr. apply app_inv_head in Htr. subst evs'. exact Hf.
Qed.

End WritePath.


Lemma Write_success_witness :
  2 = Z.of_nat (length [65; 66]) /\
  List.filter is_write
    [EvRead (raw regLSR) 0x20 None; EvWrite (raw regTHR) 65 None;
     EvRead (raw regLSR) 0x20 None; EvWrite (raw regTHR) 66 None]
  = map thr_write [65; 66].
Proof.
  apply (Write_success dev0 [65; 66] 3 (boot [ok 0x20; ok 0; ok 0x20])
           (mkWorld [] ms_clock 2
              [EvRead (raw regLSR) 0x20 None; EvWrite (raw regTHR) 65 None;
               EvRead (raw regLSR) 0x20 None; EvWrite (raw regTHR) 66 None]));
    reflexivity.
Defined.

(** ** More on the read path *)

Section ReadMore.
Context {H : Type} {bus : I2C H}.
Implicit Types w : World H.

Lemma Read_copy_bounds rlen n :
  forall i p w w' p' k err,
    Read_copy rlen n i p w = (w', (p', k, err)) ->
    length p' = length p /\
    match err with
    | None => k = rlen
    | Some _ => i <= k < i + Z.of_nat n
    end.
Proof.
  induction n as [| n IH]; intros i p w w' p' k err Hrun.
  - injection Hrun as _ <- <- <-. split; reflexivity.
  - cbn [Read_copy] in Hrun.
    destruct (ReadByte w) as [w1 [b [e |]]].
    + injection Hrun as _ <- <- <-. rewrite length_insert. split; [reflexivity | lia].
    + apply IH in Hrun as [Hlen Hk]. rewrite length_insert in Hlen.
      split; [exact Hlen |]. destruct err; lia.
Qed.

Lemma rhr_reads_are_reads l : forallb is_read (map rhr_read l) = true.
Proof. induction l as [| b l IH]; [reflexivity | exact IH]. Qed.

(** X9. [Read] only reads: none of its transactions is a write.  It
    keeps the length of the buffer, and the count it returns is at least
    -2, at most the length of the buffer and at most 255; it is
    non-negative when there is no error and smaller than the length of
    the buffer when there is one. *)
Theorem Read_reads_only v p fuel w w' p' n err evs :
  Read v p fuel w = Some (w', (p', n, err)) ->
  trace w' = trace w ++ evs ->
  forallb is_read evs = true /\
  length p' = length p /\
  -2 <= n <= Z.of_nat (length p) /\ n <= 255 /\
  (err = None -> 0 <= n) /\
  (err <> None -> n < Z.of_nat (length p)).
Proof.
  intros Hrun Htr. split.
  - apply Read_spec in Hrun
      as (clear & Hall & _ & _ &
          [(Ht & _) | [(x & b & Ht & _) | [(x & y & b & Ht & _) |
             (x & flen & oks & tail & Ht & _ & Herr)]]]);
      rewrite Ht in Htr; apply app_inv_head in Htr; subst evs;
      pose proof (clear_are_reads _ _ Hall) as Hrd.
    + exact Hrd.
    + rewrite forallb_app, Hrd. reflexivity.
    + rewrite forallb_app, Hrd. reflexivity.
    + rewrite !forallb_app, Hrd, rhr_reads_are_reads.
      destruct err as [e |].
      * destruct Herr as (y & b & -> & _). reflexivity.
      * destruct Herr as [-> _]. reflexivity.
  - clear Htr. revert Hrun. unfold Read. cbn [time_Now].
    destruct (poll 0 _ fuel _) as [[w1 [| e |]] |]; try discriminate.
    + unfold fifoDataLength, readReg.
      destruct (ReadRegU8 _ (hw w1)) as [h2 [lv [b |]]];
        cbn [lift_err fmap option_fmap option_map].
      * intros [= _ <- <- <-]. repeat split; try lia; discriminate.
      * pose proof (u8_range lv) as Hlv.
        set (rlen := if Z.of_nat (length p) <? u8 lv then Z.of_nat (length p) else u8 lv).
        assert (Hr : 0 <= rlen <= Z.of_nat (length p) /\ rlen <= 255)
          by (subst rlen; destruct (Z.ltb_spec (Z.of_nat (length p)) (u8 lv)); lia).
        intros [= Hcopy]. apply Read_copy_bounds in Hcopy as [Hlen Hk].
        split; [exact Hlen |]. destruct err as [e |].
        -- repeat split; try lia; discriminate.
        -- subst n. repeat split; try lia; intros Hne; contradiction.
    + intros [= _ <- <- <-]. repeat split; try lia; discriminate.
    + intros [= _ <- <- <-]. repeat split; try lia; discriminate.
Qed.

(** X10. On an empty buffer, once the data-ready poll and the FIFO-level
    query have succeeded, [Read] returns 0 and no error whatever the FIFO
    level is, and does not touch the Receive Holding Register: the level
    query is its last transaction. *)
Theorem Read_empty_buffer v fuel w w1 h2 lv :
  poll 0 (deadline v w) fuel (fst (time_Now w)) = Some (w1, PollReady) ->
  ReadRegU8 (raw regRXLVL) (hw w1) = (h2, (lv, None)) ->
  Read v [] fuel w =
    Some (mkWorld h2 (clock w1) (ticks w1)
            (trace w1 ++ [EvRead (raw regRXLVL) (u8 lv) None]),
          ([], 0, None)).
Proof.
  intros Hpoll Hlv.
  rewrite (Read_after_poll v [] fuel w w1 h2 lv Hpoll Hlv).
  pose proof (u8_range lv) as Hr. cbn [length].
  replace (Z.min (Z.of_nat 0) (u8 lv)) with 0 by lia.
  reflexivity.
Qed.

End ReadMore.

Lemma Read_reads_only_witness :
  forallb is_read
    [EvRead (raw regLSR) 1 None; EvRead (raw regRXLVL) 200 None;
     EvRead (raw regRHR) 65 None; EvRead (raw regRHR) 66 None] = true /\
  length [65; 66] = length [9; 9] /\ -2 <= 2 <= Z.of_nat (length [9; 9]).
Proof.
  destruct (Read_reads_only dev0 [9; 9] 3 (boot [ok 1; ok 200; ok 65; ok 66])
              (mkWorld [] ms_clock 1
                 [EvRead (raw regLSR) 1 None; EvRead (raw regRXLVL) 200 None;
                  EvRead (raw regRHR) 65 None; EvRead (raw regRHR) 66 None])
              [65; 66] 2 None
              [EvRead (raw regLSR) 1 None; EvRead (raw regRXLVL) 200 None;
               EvRead (raw regRHR) 65 None; EvRead (raw regRHR) 66 None])
    as (Hr & Hl & Hn & _); [reflexivity | reflexivity |].
  repeat split; assumption || apply Hn.
Defined.

Lemma Read_empty_buffer_witness :
  option_map snd (Read dev0 [] 3 (boot [ok 1; ok 7])) = Some ([], 0, None).
Proof.
  rewrite (Read_empty_buffer dev0 3 (boot [ok 1; ok 7])
             (mkWorld [ok 7] ms_clock 1 [EvRead (raw regLSR) 1 None]) [] 7);
    reflexivity.
Defined.

(** ** More on the Open sequence *)

Section OpenMore.
Context {H : Type} {bus : I2C H}.
Implicit Types w : World H.

(** The three ways [Open] can end once the handle is acquired. *)
Lemma Open_outcomes conf w h w' r :
  NewI2C (Address conf) (Open_bus conf) (hw w) = (h, None) ->
  Open conf w = (w', r) ->
  let w0 := record (EvNew (Address conf) (Open_bus conf) None) h w in
  (exists k step wk wf e,
     Open_steps conf !! k = Some step /\
     run_steps (take k (Open_steps conf)) w0 = Some wk /\
     step wk = (wf, Done (Some e)) /\
     w' = fst (Close wf) /\ r = Done (None, Some e)) \/
  (exists w1,
     run_steps (take 1 (Open_steps conf)) w0 = Some w1 /\
     setBaudRate (Open_dev conf) (Baud conf) w1 = (w', Panic) /\ r = Panic) \/
  (run_steps (Open_steps conf) w0 = Some w' /\
   r = Done (Some (Open_dev conf), None)).
Proof.
  intros Hnew Hopen w0. subst w0. revert Hopen.
  unfold Open, Open_steps, Open_dev, Open_bus in *. unfold Open_defaults in *.
  rewrite Hnew. cbn [take run_steps lookup list_lookup]. unfold returning, abort_open.
  destruct (testChip _) as [w1 [e1 |]] eqn:E1.
  { intros [= <- <-]. left. exists 0%nat. do 4 eexists.
    split; [reflexivity |]. cbn [take run_steps]. split; [reflexivity |].
    rewrite E1. auto. }
  destruct (setBaudRate _ _ w1) as [w2 [[e2 |] |]] eqn:E2.
  { intros [= <- <-]. left. exists 1%nat. do 4 eexists.
    split; [reflexivity |]. cbn [take run_steps]. rewrite E1.
    split; [reflexivity |]. rewrite E2. auto. }
  2: { intros [= <- <-]. right. left. exists w1. auto. }
  destruct (enableFifo true w2) as [w3 [e3 |]] eqn:E3.
  { intros [= <- <-]. left. exists 2%nat. do 4 eexists.
    split; [reflexivity |]. cbn [take run_steps]. rewrite E1, E2.
    split; [reflexivity |]. rewrite E3. auto. }
  destruct (setUARTAttributes _ _ _ w3) as [w4 [e4 |]] eqn:E4.
  { intros [= <- <-]. left. exists 3%nat. do 4 eexists.
    split; [reflexivity |]. cbn [take run_steps]. rewrite E1, E2, E3.
    split; [reflexivity |]. rewrite E4. auto. }
  destruct (ClearFifo BothFifo w4) as [w5 [e5 |]] eqn:E5.
  { intros [= <- <-]. left. exists 4%nat. do 4 eexists.
    split; [reflexivity |]. cbn [take run_steps]. rewrite E1, E2, E3, E4.
    split; [reflexivity |]. rewrite E5. auto. }
  intros [= <- <-]. right. right. auto.
Qed.

(** X11. Once the handle is acquired, [Open] returns a device exactly
    when the five steps all return no error, in the world they leave; the
    device then carries the configured crystal frequency and the
    configured timeout, one second when that is zero, and the handle has
    not been closed. *)
Theorem Open_succeeds_iff conf w h w' dev :
  NewI2C (Address conf) (Open_bus conf) (hw w) = (h, None) ->
  let w0 := record (EvNew (Address conf) (Open_bus conf) None) h w in
  (Open conf w = (w', Done (Some dev, None)) <->
   run_steps (Open_steps conf) w0 = Some w' /\ dev = Open_dev conf) /\
  (Open conf w = (w', Done (Some dev, None)) ->
   xtalFreq dev = XtalFreq conf /\
   timeout dev = (if Timeout conf =? 0 then Second else Timeout conf) /\
   count_close (trace w') = count_close (trace w)).
Proof.
  intros Hnew w0.
  assert (Hfwd : Open conf w = (w', Done (Some dev, None)) ->
                 run_steps (Open_steps conf) w0 = Some w' /\ dev = Open_dev conf).
  { intros Hopen.
    destruct (Open_outcomes conf w h w' _ Hnew Hopen)
      as [(k & step & wk & wf & e & _ & _ & _ & _ & [=]) |
          [(w1 & _ & _ & [=]) | (Hrun & [= ->])]].
    split; [exact Hrun | reflexivity]. }
  split; [split; [exact Hfwd |] |].
  - intros [Hrun ->]. revert Hrun. subst w0.
    unfold Open, Open_steps, Open_dev, Open_bus in *. unfold Open_defaults in *.
    rewrite Hnew. cbn [run_steps]. unfold returning.
    destruct (testChip _) as [w1 [e1 |]]; [discriminate |].
    destruct (setBaudRate _ _ w1) as [w2 [[e2 |] |]]; try discriminate.
    destruct (enableFifo true w2) as [w3 [e3 |]]; [discriminate |].
    destruct (setUARTAttributes _ _ _ w3) as [w4 [e4 |]]; [discriminate |].
    destruct (ClearFifo BothFifo w4) as [w5 [e5 |]]; [discriminate |].
    intros [= <-]. reflexivity.
  - intros Hopen. destruct (Hfwd Hopen) as [Hrun ->].
    split; [reflexivity |]. split.
    + unfold Open_dev, Open_defaults. cbn [timeout].
      destruct (Timeout conf =? 0); reflexivity.
    + assert (Hio : io_only w0 w').
      { eapply io_run_steps; [| exact Hrun]. intros s Hin.
        apply io_Open_steps with (conf := conf). exact Hin. }
      rewrite (io_count_close _ _ Hio). subst w0.
      unfold count_close, record. cbn [trace].
      rewrite List.filter_app, length_app. cbn. lia.
Qed.

Lemma count_close_snoc (l : list Event) ev :
  count_close (l ++ [ev]) = (count_close l + (if is_close ev then 1 else 0))%nat.
Proof.
  unfold count_close. rewrite List.filter_app, length_app. cbn [List.filter].
  destruct (is_close ev); reflexivity.
Qed.

(** X12. [Open] closes the handle exactly once when it returns an error
    after having acquired it, and never otherwise: not when the
    acquisition itself fails, not when it returns a device, and not when
    baud programming panics. *)
Theorem Open_close_accounting conf w w' r :
  Open conf w = (w', r) ->
  let acquired :=
    match snd (NewI2C (Address conf) (Open_bus conf) (hw w)) with
    | None => true
    | Some _ => false
    end in
  count_close (trace w') =
    (count_close (trace w) +
     (if acquired then match r with Done (_, Some _) => 1 | _ => 0 end else 0))%nat.
Proof.
  intros Hopen. cbv zeta.
  destruct (NewI2C (Address conf) (Open_bus conf) (hw w)) as [h [b |]] eqn:Hnew;
    cbn [snd].
  - revert Hopen. unfold Open. unfold Open_bus in Hnew.
    destruct (Open_defaults conf) as [[[[size parity] stop] busn] tmo].
    rewrite Hnew. intros [= <- _]. unfold record. cbn [trace].
    rewrite count_close_snoc. reflexivity.
  - set (w0 := record (EvNew (Address conf) (Open_bus conf) None) h w).
    assert (H0 : count_close (trace w0) = count_close (trace w)).
    { subst w0. unfold record. cbn [trace]. rewrite count_close_snoc. cbn. lia. }
    assert (Hsteps : forall steps wk,
               (forall s, In s steps -> In s (Open_steps conf)) ->
               run_steps steps w0 = Some wk -> io_only w0 wk).
    { intros steps wk Hsub Hrun. eapply io_run_steps; [| exact Hrun].
      intros s Hin. apply io_Open_steps with (conf := conf). apply Hsub. exact Hin. }
    assert (Htake : forall k s, In s (take k (Open_steps conf)) -> In s (Open_steps conf)).
    { intros k s Hin. apply list_elem_of_In. apply list_elem_of_In in Hin.
      exact (subseteq_take k _ _ Hin). }
    destruct (Open_outcomes conf w h w' r Hnew Hopen)
      as [(k & step & wk & wf & e & Hk & Hrun & Hstep & -> & ->) |
          [(w1 & Hrun & Hsb & ->) | (Hrun & ->)]].
    + assert (Hio : io_only w0 wf).
      { eapply io_trans; [exact (Hsteps _ _ (Htake k) Hrun) |].
        assert (Hin : In step (Open_steps conf))
          by (apply list_elem_of_In; eapply list_elem_of_lookup_2; exact Hk).
        pose proof (io_Open_steps conf step Hin wk) as Hs.
        rewrite Hstep in Hs. exact Hs. }
      unfold Close. destruct (I2C_Close (hw wf)) as [hc ec].
      unfold record. cbn [fst trace]. rewrite count_close_snoc.
      rewrite (io_count_close _ _ Hio), H0. reflexivity.
    + assert (Hio : io_only w0 w').
      { eapply io_trans; [exact (Hsteps _ _ (Htake 1%nat) Hrun) |].
        pose proof (io_setBaudRate (Open_dev conf) (Baud conf) w1) as Hs.
        rewrite Hsb in Hs. exact Hs. }
      rewrite (io_count_close _ _ Hio), H0. lia.
    + rewrite (io_count_close _ _ (Hsteps _ _ (fun s Hin => Hin) Hrun)), H0. lia.
Qed.

Lemma testChip_error w e :
  snd (testChip w) = Some e -> e <> ErrUnsupportedDataBits.
Proof.
  unfold testChip, readReg, writeReg.
  repeat (bus_step; try (intros [= <-]; discriminate)).
  destruct (negb _); [intros [= <-] |]; discriminate.
Qed.

Lemma setBaudRate_error v baud w e :
  snd (setBaudRate v baud w) = Done (Some e) -> e <> ErrUnsupportedDataBits.
Proof.
  unfold setBaudRate, peekRegBit, updateRegBit, readReg, writeReg.
  bus_step; [intros [= <-]; discriminate |].
  destruct (baud_divisor _ _ _); [| discriminate].
  repeat (bus_step; try (intros [= <-]; discriminate)); try discriminate.
Qed.

Lemma enableFifo_error w e :
  snd (enableFifo true w) = Some e -> e <> ErrUnsupportedDataBits.
Proof.
  unfold enableFifo, writeReg. bus_step; [intros [= <-] |]; discriminate.
Qed.

Lemma ClearFifo_error sel w e :
  snd (ClearFifo sel w) = Some e -> e <> ErrUnsupportedDataBits.
Proof.
  unfold ClearFifo, readReg, writeReg.
  repeat (bus_step; try (intros [= <-]; discriminate)); try discriminate.
Qed.

Lemma setUARTAttributes_error d s p w w' :
  setUARTAttributes d s p w = (w', Some ErrUnsupportedDataBits) ->
  w' = w /\ d <> 5 /\ d <> 6 /\ d <> 7 /\ d <> 8.
Proof.
  unfold setUARTAttributes.
  destruct (Z.eqb_spec d 5);
    [| destruct (Z.eqb_spec d 6);
       [| destruct (Z.eqb_spec d 7); [| destruct (Z.eqb_spec d 8)]]];
    try (intros [= <-]; auto);
    match goal with
    | |- writeReg ?r ?x ?w = _ -> _ =>
        let h := fresh "h" in let e := fresh "e" in
        destruct (writeReg_spec r x w) as (h & e & _ & ->);
        destruct e; discriminate
    end.
Qed.

(** X13. The data-bit count is validated late: when [Open] returns
    [ErrUnsupportedDataBits], the configured [Size] is none of 0, 5, 6, 7
    and 8, and the self-test, the baud programming and the FIFO enable
    have already been carried out without error; the only transaction
    after them is the close of the handle. *)
Theorem Open_validates_size_late conf w w' :
  Open conf w = (w', Done (None, Some ErrUnsupportedDataBits)) ->
  (Size conf <> 0 /\ Size conf <> 5 /\ Size conf <> 6 /\
   Size conf <> 7 /\ Size conf <> 8) /\
  exists h w3 hc ec,
    NewI2C (Address conf) (Open_bus conf) (hw w) = (h, None) /\
    run_steps (take 3 (Open_steps conf))
      (record (EvNew (Address conf) (Open_bus conf) None) h w) = Some w3 /\
    I2C_Close (hw w3) = (hc, ec) /\
    w' = record (EvClose ec) hc w3.
Proof.
  intros Hopen.
  destruct (NewI2C (Address conf) (Open_bus conf) (hw w)) as [h [b |]] eqn:Hnew.
  { revert Hopen. unfold Open. unfold Open_bus in Hnew.
    destruct (Open_defaults conf) as [[[[size parity] stop] busn] tmo].
    rewrite Hnew. discriminate. }
  destruct (Open_outcomes conf w h w' _ Hnew Hopen)
    as [(k & step & wk & wf & e & Hk & Hrun & Hstep & -> & [= <-]) |
        [(w1 & _ & _ & [=]) | (_ & [=])]].
  revert Hk Hrun Hstep. unfold Open_steps. unfold Open_defaults.
  destruct k as [| [| [| [| [| k]]]]]; cbn [lookup list_lookup];
    try discriminate; intros [= <-] Hrun Hstep.
  - unfold returning in Hstep.
    pose proof (testChip_error wk ErrUnsupportedDataBits) as He.
    destruct (testChip wk) as [x [y |]]; [| discriminate Hstep].
    injection Hstep as _ ->. exfalso. apply He; reflexivity.
  - pose proof (setBaudRate_error (Open_dev conf) (Baud conf) wk
                  ErrUnsupportedDataBits) as He.
    rewrite Hstep in He. exfalso. apply He; reflexivity.
  - unfold returning in Hstep.
    pose proof (enableFifo_error wk ErrUnsupportedDataBits) as He.
    destruct (enableFifo true wk) as [x [y |]]; [| discriminate Hstep].
    injection Hstep as _ ->. exfalso. apply He; reflexivity.
  - unfold returning in Hstep.
    destruct (setUARTAttributes _ _ _ wk) as [x [y |]] eqn:Hset;
      [| discriminate Hstep].
    injection Hstep as <- ->.
    apply setUARTAttributes_error in Hset as (-> & H5 & H6 & H7 & H8).
    split.
    + unfold DefaultSize in *. destruct (Z.eqb_spec (Size conf) 0); [lia |].
      auto.
    + destruct (I2C_Close (hw wk)) as [hc ec] eqn:Hcl.
      exists h, wk, hc, ec. split; [reflexivity |]. split; [exact Hrun |].
      split; [exact Hcl |]. unfold Close. rewrite Hcl. reflexivity.
  - unfold returning in Hstep.
    pose proof (ClearFifo_error BothFifo wk ErrUnsupportedDataBits) as He.
    destruct (ClearFifo BothFifo wk) as [x [y |]]; [| discriminate Hstep].
    injection Hstep as _ ->. exfalso. apply He; reflexivity.
Qed.

End OpenMore.

Lemma Open_succeeds_iff_witness :
  snd (Open conf_sample (boot [ok 0; ok 0; ok 0xde]))
    = Done (Some (mkDev 14745600 Second), None).
Proof.
  destruct (Open_succeeds_iff conf_sample (boot [ok 0; ok 0; ok 0xde])
              [ok 0; ok 0xde]
              (fst (Open conf_sample (boot [ok 0; ok 0; ok 0xde])))
              (mkDev 14745600 Second)) as [[_ Hback] _]; [reflexivity |].
  rewrite Hback; [reflexivity |]. split; reflexivity.
Defined.

Lemma Open_close_accounting_witness :
  count_close (trace (fst (Open conf_size9 (boot [ok 0; ok 0; ok 0xde])))) = 1%nat.
Proof.
  rewrite (Open_close_accounting conf_size9 (boot [ok 0; ok 0; ok 0xde])
             (fst (Open conf_size9 (boot [ok 0; ok 0; ok 0xde])))
             (Done (None, Some ErrUnsupportedDataBits)));
    reflexivity.
Defined.

Lemma Open_validates_size_late_witness :
  Size conf_size9 <> 0 /\ Size conf_size9 <> 8.
Proof.
  destruct (Open_validates_size_late conf_size9 (boot [ok 0; ok 0; ok 0xde])
              (fst (Open conf_size9 (boot [ok 0; ok 0; ok 0xde]))))
    as [(H0 & _ & _ & _ & H8) _]; [reflexivity |].
  split; assumption.
Defined.

(** ** Register addresses *)

Section Addresses.
Context {H : Type} {bus : I2C H}.
Implicit Types w : World H.

Lemma raw_small reg : 0 <= reg < 32 -> raw reg = 8 * reg.
Proof.
  intros Hr. unfold raw, u8. rewrite Z.shiftl_mul_pow2 by lia.
  change (2 ^ 3) with 8. rewrite Z.mod_small by lia. lia.
Qed.

(** X14. For a register number below 32, [readReg] and [writeReg] put the
    address [8 * reg] on the bus, so distinct registers are accessed at
    distinct addresses; from 32 on the shifted address wraps as a byte
    and register [reg + 32] is accessed at the address of register
    [reg]. *)
Theorem register_addresses reg w :
  0 <= reg < 32 ->
  (exists h v e,
     ReadRegU8 (8 * reg) (hw w) = (h, (v, e)) /\
     readReg reg w = (record (EvRead (8 * reg) (u8 v) e) h w, (u8 v, lift_err e))) /\
  (forall value, exists h e,
     WriteRegU8 (8 * reg) value (hw w) = (h, e) /\
     writeReg reg value w = (record (EvWrite (8 * reg) value e) h w, lift_err e)) /\
  (forall reg', 0 <= reg' < 32 -> raw reg = raw reg' -> reg = reg') /\
  readReg (reg + 32) w = readReg reg w.
Proof.
  intros Hr. rewrite <- (raw_small reg Hr). repeat split.
  - apply readReg_spec.
  - intros value. apply writeReg_spec.
  - intros reg' Hr' Heq. rewrite !raw_small in Heq by assumption. lia.
  - unfold readReg. replace (u8 (Z.shiftl (reg + 32) 3)) with (u8 (Z.shiftl reg 3));
      [reflexivity |].
    unfold u8. rewrite !Z.shiftl_mul_pow2 by lia. change (2 ^ 3) with 8.
    replace ((reg + 32) * 8) with (reg * 8 + 1 * 256) by lia.
    rewrite Z.mod_add by lia. reflexivity.
Qed.

End Addresses.

Lemma register_addresses_witness :
  readReg (regRXLVL + 32) (boot [ok 5]) = readReg regRXLVL (boot [ok 5]).
Proof.
  destruct (register_addresses regRXLVL (boot [ok 5])) as (_ & _ & _ & Hwrap);
    [unfold regRXLVL; lia |].
  exact Hwrap.
Defined.

(** ** More on the write path *)

Section WriteMore.
Context {H : Type} {bus : I2C H}.
Implicit Types w : World H.

(** X15. The readiness bit is tested before the deadline: when the first
    poll of the Line Status Register finds bit 5 set, [WriteByte] writes
    the byte at once and returns the status of that write, whatever the
    clock shows and whatever the timeout is (a deadline already past
    included). The clock is read once, at entry. *)
Theorem WriteByte_ready_at_once v c fuel w h1 x :
  ReadRegU8 (raw regLSR) (hw w) = (h1, (x, None)) ->
  Z.testbit (u8 x) 5 = true ->
  exists h2 e,
    WriteRegU8 (raw regTHR) c h1 = (h2, e) /\
    WriteByte v c (S fuel) w =
      Some (mkWorld h2 (clock w) (S (ticks w))
              (trace w ++ [EvRead (raw regLSR) (u8 x) None;
                           EvWrite (raw regTHR) c e]),
            lift_err e).
Proof.
  intros Hrd Hbit.
  destruct (WriteRegU8 (raw regTHR) c h1) as [h2 e] eqn:Hwr.
  exists h2, e. split; [reflexivity |].
  unfold WriteByte. cbn [time_Now poll]. unfold peekRegBit, readReg.
  fold (raw regLSR). cbn [hw]. rewrite Hrd.
  cbn [lift_err fmap option_fmap option_map].
  rewrite (mask_test (u8 x) 5) by lia. rewrite Hbit.
  unfold writeReg. fold (raw regTHR). cbn [record hw]. rewrite Hwr.
  unfold record. cbn [clock ticks trace]. rewrite <- app_assoc. reflexivity.
Qed.


End WriteMore.

Lemma WriteByte_ready_at_once_witness :
  option_map snd (WriteByte dev_short 65 1 (mkWorld [ok 0x20] (fun _ => 99) 0 []))
    = Some None.
Proof.
  destruct (WriteByte_ready_at_once dev_short 65 0
              (mkWorld [ok 0x20] (fun _ => 99) 0 []) [] 0x20)
    as (h2 & e & Hwr & Hrun); [reflexivity | reflexivity |].
  rewrite Hrun. injection Hwr as _ <-. reflexivity.
Defined.


(** ** Defaults of the configuration *)

Section Defaults.
Context {H : Type} {bus : I2C H}.
Implicit Types w : World H.

(** X17. With [Size], [Parity] and [StopBits] left at zero, a successful
    [Open] programs 8 data bits, no parity and one stop bit: its last
    four transactions are the FIFO enable (1 to the FIFO Control
    Register), the write of 3 to the Line Control Register, the read of
    the Interrupt Identification Register and the write clearing both
    FIFOs (6, or 7 when the FIFO-enabled flag was read). *)
Theorem Open_defaults_8N1 conf w w' dev :
  Size conf = 0 -> Parity conf = 0 -> StopBits conf = 0 ->
  Open conf w = (w', Done (Some dev, None)) ->
  exists pre iir,
    trace w' = pre ++
      [EvWrite (raw regFCR) 1 None;
       EvWrite (raw regLCR) 3 None;
       EvRead (raw regIIR) iir None;
       EvWrite (raw regFCR) (if fifo_enabled iir then 7 else 6) None].
Proof.
  intros Hs Hp Hb. unfold Open, Open_defaults. rewrite Hs, Hp, Hb.
  cbn [Z.eqb]. unfold abort_open.
  destruct (NewI2C _ _ _) as [h [b |]]; [discriminate |].
  destruct (testChip _) as [w1 [e1 |]]; [discriminate |].
  destruct (setBaudRate _ _ w1) as [w2 [[e2 |] |]]; try discriminate.
  unfold enableFifo, setUARTAttributes, ClearFifo, readReg, writeReg.
  cbn [Z.eqb DefaultSize Stop1 ParityNone negb Pos.eqb].
  fold (raw regFCR) (raw regLCR) (raw regIIR).
  repeat (bus_step; try discriminate).
  intros [= <- _]. trace_norm.
  exists (trace w2), (u8 z). unfold fifo_enabled.
  destruct (negb (Z.land (u8 z) 192 =? 0)); reflexivity.
Qed.

End Defaults.

Lemma Open_defaults_8N1_witness :
  exists pre iir,
    trace (fst (Open conf_sample (boot [ok 0; ok 0; ok 0xde]))) = pre ++
      [EvWrite (raw regFCR) 1 None;
       EvWrite (raw regLCR) 3 None;
       EvRead (raw regIIR) iir None;
       EvWrite (raw regFCR) (if fifo_enabled iir then 7 else 6) None].
Proof.
  apply (Open_defaults_8N1 conf_sample (boot [ok 0; ok 0; ok 0xde]) _
           (mkDev 14745600 Second)); reflexivity.
Defined.

Lemma testChip_passes_iff_witness :
  snd (testChip (boot [ok 0; ok 0xde])) = None.
Proof.
  destruct (testChip_passes_iff (boot [ok 0; ok 0xde])) as [[_ Hpass] _].
  apply Hpass. exists [ok 0xde], [], 0xde. repeat split.
Defined.
